(** * tilda-form-uploader: the [POST /upload] handler of [server.js]

    A shallow embedding of the Express handler that validates a multipart
    submission, uploads every file to a Drive folder, appends one summary
    row to a spreadsheet and removes the temporary files multer wrote.

    The two cloud services, the clock and the configuration are outside
    the program: they are the methods of a class [Services] over an
    abstract world [W], so every theorem of the section [Properties] holds
    for every behaviour of the services.  What the handler does is
    recorded in a chronological log of events (remote calls with their
    outcome, [fs.unlinkSync] calls, responses written to [res]).

    Modelling choices.  Strings are byte strings (a JS string is taken by
    its UTF-8 encoding).  [f.size] and the running total are integers,
    which is exact for a JS number below 2^53.  A text field of the body
    is a string or [undefined]; a thrown value is an object whose
    [message] is a string or [undefined].  The directory [tmp_uploads/] is
    a finite set of paths and [fs.unlinkSync] removes a path that is
    there and throws when it is not.  What multer does before the handler
    runs (writing the files, its own limits) is not part of the model,
    and neither are [console.warn] and [console.error]. *)

From stdpp Require Import gmap strings list.
From Stdlib Require Import ZArith DecimalString DecimalNat.

Local Open Scope string_scope.
Local Open Scope list_scope.

(** ** Data *)

(** The fields of a multer file object that the handler reads. *)
Module File.
Record t := mk {
  originalname : string;
  mimetype : string;
  size : Z;
  path : string
}.
End File.

(** [req.body]: a text field is a string, or [undefined] when the part is
    absent. *)
Module Body.
Record t := mk {
  firstName : option string;
  lastName : option string;
  phone : option string
}.
End Body.

(** [req]: [req.files] is [undefined] when multer attached no array. *)
Module Req.
Record t := mk {
  files : option (list File.t);
  body : Body.t
}.
End Req.

(** A thrown value: an object whose [message] may be missing. *)
Record JsError := mkError { message : option string }.

(** [meta.data] of [drive.files.get]; [webViewLink] may be [undefined]. *)
Module Meta.
Record t := mk {
  id : string;
  name : string;
  webViewLink : option string
}.
End Meta.

(** An element of the [uploaded] array: [{ id, name, link }]. *)
Module Uploaded.
Record t := mk {
  id : string;
  name : string;
  link : string
}.
End Uploaded.

(** Arguments of the four remote calls, as the handler builds them. *)
Record CreateParams := mkCreate {
  resource_name : string;
  resource_parents : list string;
  media_mimeType : string;
  media_body : string;          (* the path [fs.createReadStream] opens *)
  create_fields : string
}.

Record PermissionParams := mkPermission {
  perm_fileId : string;
  perm_role : string;
  perm_type : string
}.

Record GetParams := mkGet {
  get_fileId : string;
  get_fields : string
}.

Record AppendParams := mkAppend {
  spreadsheetId : string;
  range : string;
  valueInputOption : string;
  values : list (list (option string))
}.

(** The JSON body written to [res]: [{ success:true, uploaded }] or
    [{ success:false, error }]. *)
Inductive ResponseBody :=
| Success (uploaded : list Uploaded.t)
| Failure (error : string).

Definition success (b : ResponseBody) : bool :=
  match b with Success _ => true | Failure _ => false end.

(** What the handler does to the outside, in order.  [FilesDelete] is the
    Drive call that removes an object ([drive.files.delete]); the handler
    has no such call, the constructor is there to say so. *)
Inductive Event :=
| FilesCreate (p : CreateParams) (r : JsError + string)
| PermissionsCreate (p : PermissionParams) (r : JsError + unit)
| FilesGet (p : GetParams) (r : JsError + Meta.t)
| FilesDelete (fileId : string)
| ValuesAppend (p : AppendParams) (r : JsError + unit)
| UnlinkSync (path : string)
| Respond (status : nat) (body : ResponseBody).

(** ** JavaScript helpers *)

(** Truthiness of a value that is a string or [undefined]. *)
Definition truthy (v : option string) : bool :=
  match v with
  | Some s => negb (String.eqb s "")
  | None => false
  end.

(** [v || d] where [d] is a string. *)
Definition or_else (v : option string) (d : string) : string :=
  match v with
  | Some s => if truthy v then s else d
  | None => d
  end.

(** [Array.prototype.join] on an array of strings. *)
Fixpoint join (sep : string) (l : list string) : string :=
  match l with
  | [] => ""
  | [x] => x
  | x :: rest => x +:+ sep +:+ join sep rest
  end.

(** [Number.prototype.toString] on an array length. *)
Definition toString (n : nat) : string :=
  NilZero.string_of_uint (Nat.to_uint n).

(** ** State and exceptions *)

Section Monad.

Context {W : Type}.

(** [env]: the world outside the process (both services, the clock);
    [tmp]: the paths present in [tmp_uploads/]; [uploaded]: the
    request-local array; [log]: the events so far. *)
Record State := mkState {
  env : W;
  tmp : gset string;
  uploaded : list Uploaded.t;
  log : list Event
}.

(** State and exception monad: a thrown error keeps the state reached. *)
Definition M (A : Type) : Type := State -> State * (JsError + A).

Definition ret {A} (a : A) : M A := fun s => (s, inr a).

Definition bind {A B} (m : M A) (k : A -> M B) : M B :=
  fun s =>
    match m s with
    | (s', inr a) => k a s'
    | (s', inl e) => (s', inl e)
    end.

Definition try_catch {A} (m : M A) (h : JsError -> M A) : M A :=
  fun s =>
    match m s with
    | (s', inr a) => (s', inr a)
    | (s', inl e) => h e s'
    end.

Definition emit (e : Event) : M unit :=
  fun s => (mkState (env s) (tmp s) (uploaded s) (log s ++ [e]), inr tt).

(** An awaited remote call: the world moves, the call and its outcome are
    logged, a rejection is thrown. *)
Definition await {P R} (svc : P -> W -> W * (JsError + R))
    (ev : P -> JsError + R -> Event) (p : P) : M R :=
  fun s =>
    let '(w, r) := svc p (env s) in
    (mkState w (tmp s) (uploaded s) (log s ++ [ev p r]), r).

End Monad.

Arguments State W : clear implicits.
Arguments M W A : clear implicits.

Notation "x <- m ;; k" := (bind m (fun x => k))
  (at level 100, m at next level, right associativity).
Notation "m >> k" := (bind m (fun _ => k))
  (at level 100, right associativity).

(** ** The services the handler talks to *)

(** The [drive] and [sheets] clients, the clock and the configuration read
    from the environment at start-up, over a world [W]. *)
Class Services (W : Type) := {
  drive_files_create : CreateParams -> W -> W * (JsError + string);
  drive_permissions_create : PermissionParams -> W -> W * (JsError + unit);
  drive_files_get : GetParams -> W -> W * (JsError + Meta.t);
  sheets_values_append : AppendParams -> W -> W * (JsError + unit);
  Date_toISOString : W -> string;
  DRIVE_FOLDER_ID : string;
  SHEETS_ID : string
}.

(** ** The handler *)

Definition MAX_TOTAL : Z := 100 * 1024 * 1024.

Definition msg_no_files : string := "Hech qanday rasm yuklanmadi.".
Definition msg_too_many : string := "Maksimal 10 ta rasm ruxsat etiladi.".
Definition msg_too_large : string := "Fayllarning umumiy hajmi 100MB dan oshdi.".
Definition msg_missing : string := "Ism, familiya yoki telefon raqami toʻliq emas.".
Definition msg_server : string := "Server xatosi".

Definition uc_prefix : string := "https://drive.google.com/uc?id=".

(** [files.reduce((s,f)=>s+f.size,0)] *)
Definition totalSize (files : list File.t) : Z :=
  fold_left (fun s f => (s + File.size f)%Z) files 0%Z.

(** The object pushed for one file, from the metadata of line 109. *)
Definition entry_of (meta : Meta.t) : Uploaded.t :=
  Uploaded.mk (Meta.id meta) (Meta.name meta)
    (or_else (Meta.webViewLink meta) (uc_prefix +:+ Meta.id meta)).

(** The cells of the appended row, line 119. *)
Definition row_of (ts : string) (b : Body.t) (ups : list Uploaded.t)
    : list (option string) :=
  [ Some ts; Body.firstName b; Body.lastName b; Body.phone b;
    Some (toString (length ups));
    Some (join " | " (map Uploaded.name ups));
    Some (join " | " (map Uploaded.link ups)) ].

Definition permission_params (fileId : string) : PermissionParams :=
  mkPermission fileId "reader" "anyone".

Definition get_params (fileId : string) : GetParams :=
  mkGet fileId "id, name, webViewLink, webContentLink".

Section Handler.

Context {W : Type} `{Services W}.

Definition ENOENT (p : string) : JsError :=
  mkError (Some ("ENOENT: no such file or directory, unlink '" +:+ p +:+ "'")).

(** [fs.unlinkSync(p)]: removes [p], throws when [p] does not exist. *)
Definition unlinkSync (p : string) : M W unit :=
  fun s =>
    (mkState (env s) (tmp s ∖ {[p]}) (uploaded s) (log s ++ [UnlinkSync p]),
     if decide (p ∈ tmp s) then inr tt else inl (ENOENT p)).

(** [try{ fs.unlinkSync(f.path) }catch(e){}] *)
Definition try_unlink (f : File.t) : M W unit :=
  try_catch (unlinkSync (File.path f)) (fun _ => ret tt).

(** [l.forEach(f)] *)
Fixpoint forEach {A} (l : list A) (f : A -> M W unit) : M W unit :=
  match l with
  | [] => ret tt
  | x :: rest => f x >> forEach rest f
  end.

(** [uploaded.push(u)] *)
Definition push (u : Uploaded.t) : M W unit :=
  fun s => (mkState (env s) (tmp s) (uploaded s ++ [u]) (log s), inr tt).

(** [const uploaded = []] *)
Definition new_uploaded : M W unit :=
  fun s => (mkState (env s) (tmp s) [] (log s), inr tt).

Definition read_uploaded : M W (list Uploaded.t) :=
  fun s => (s, inr (uploaded s)).

(** [new Date().toISOString()] *)
Definition now : M W string :=
  fun s => (s, inr (Date_toISOString (env s))).

(** [res.status(code).json(body)]; [res.json(body)] is status 200. *)
Definition res_status_json (code : nat) (b : ResponseBody) : M W unit :=
  emit (Respond code b).

Definition res_json (b : ResponseBody) : M W unit := res_status_json 200 b.

Definition create_params (f : File.t) : CreateParams :=
  mkCreate (File.originalname f) [DRIVE_FOLDER_ID] (File.mimetype f)
    (File.path f) "id".

Definition append_params (row : list (option string)) : AppendParams :=
  mkAppend SHEETS_ID "Sheet1!A:Z" "USER_ENTERED" [row].

(** The body of [for(const f of files)], lines 99-112. *)
Definition upload_one (f : File.t) : M W unit :=
  fileId <- await drive_files_create FilesCreate (create_params f) ;;
  try_catch
    (await drive_permissions_create PermissionsCreate (permission_params fileId))
    (fun _ => ret tt) >>
  meta <- await drive_files_get FilesGet (get_params fileId) ;;
  push (entry_of meta) >>
  try_unlink f.

Fixpoint upload_loop (files : list File.t) : M W unit :=
  match files with
  | [] => ret tt
  | f :: rest => upload_one f >> upload_loop rest
  end.

(** The [try] block, lines 85-127. *)
Definition upload_try (req : Req.t) : M W unit :=
  let files := default [] (Req.files req) in
  if (length files =? 0)%nat then
    res_status_json 400 (Failure msg_no_files)
  else if (10 <? length files)%nat then
    res_status_json 400 (Failure msg_too_many)
  else if (MAX_TOTAL <? totalSize files)%Z then
    res_status_json 400 (Failure msg_too_large)
  else
    let b := Req.body req in
    if negb (truthy (Body.firstName b)) || negb (truthy (Body.lastName b))
       || negb (truthy (Body.phone b)) then
      forEach files try_unlink >>
      res_status_json 400 (Failure msg_missing)
    else
      new_uploaded >>
      upload_loop files >>
      ts <- now ;;
      ups <- read_uploaded ;;
      await sheets_values_append ValuesAppend (append_params (row_of ts b ups)) >>
      res_json (Success ups).

(** The [catch] block, lines 128-133. *)
Definition upload_catch (req : Req.t) (err : JsError) : M W unit :=
  match Req.files req with
  | Some fs => forEach fs try_unlink
  | None => ret tt
  end >>
  res_status_json 500 (Failure (or_else (message err) msg_server)).

(** The handler registered for [POST /upload]. *)
Definition upload_handler (req : Req.t) : M W unit :=
  try_catch (upload_try req) (upload_catch req).

End Handler.

(** ** Reading a run *)

(** What a completed iteration of the loop obtained: the identifier of
    the new object, the outcome of the permission call, the metadata. *)
Definition Done : Type := string * (JsError + unit) * Meta.t.

(** The entries pushed by completed iterations. *)
Definition entries (done : list Done) : list Uploaded.t :=
  map (fun d => entry_of (snd d)) done.

(** Events of one completed iteration of the loop on the file [f]. *)
Definition file_events `{Services W} (f : File.t) (d : Done) : list Event :=
  let '(fileId, pr, meta) := d in
  [ FilesCreate (create_params f) (inr fileId);
    PermissionsCreate (permission_params fileId) pr;
    FilesGet (get_params fileId) (inr meta);
    UnlinkSync (File.path f) ].

Definition loop_events `{Services W} (files : list File.t)
    (done : list Done) : list Event :=
  concat (zip_with file_events files done).

(** The two ways an iteration throws: line 101 or line 109. *)
Inductive Abort :=
| CreateFailed (e : JsError)
| GetFailed (fileId : string) (pr : JsError + unit) (e : JsError).

Definition abort_error (a : Abort) : JsError :=
  match a with
  | CreateFailed e => e
  | GetFailed _ _ e => e
  end.

Definition abort_events `{Services W} (f : File.t) (a : Abort) : list Event :=
  match a with
  | CreateFailed e => [ FilesCreate (create_params f) (inl e) ]
  | GetFailed fileId pr e =>
      [ FilesCreate (create_params f) (inr fileId);
        PermissionsCreate (permission_params fileId) pr;
        FilesGet (get_params fileId) (inl e) ]
  end.

Definition paths (files : list File.t) : list string := map File.path files.

(** The events of the two clean-up loops (lines 93 and 131). *)
Definition cleanup_events (files : list File.t) : list Event :=
  map UnlinkSync (paths files).

Definition is_remote (ev : Event) : bool :=
  match ev with
  | FilesCreate _ _ | PermissionsCreate _ _ | FilesGet _ _
  | FilesDelete _ | ValuesAppend _ _ => true
  | UnlinkSync _ | Respond _ _ => false
  end.

Definition is_delete (ev : Event) : bool :=
  match ev with FilesDelete _ => true | _ => false end.

Definition is_append (ev : Event) : bool :=
  match ev with ValuesAppend _ _ => true | _ => false end.

Definition is_respond (ev : Event) : bool :=
  match ev with Respond _ _ => true | _ => false end.

(** A rejected call that line 101, 109 or 120 lets propagate; a rejected
    permission call is caught on line 106. *)
Definition fatal (ev : Event) : bool :=
  match ev with
  | FilesCreate _ (inl _) | FilesGet _ (inl _) | ValuesAppend _ (inl _) => true
  | _ => false
  end.

(** The files a [FilesCreate] call was issued for, in order. *)
Fixpoint created (evs : list Event) : list CreateParams :=
  match evs with
  | [] => []
  | FilesCreate p _ :: rest => p :: created rest
  | _ :: rest => created rest
  end.

(** The statements of lines 97-127, reached when validation passes. *)
Definition process `{Services W} (req : Req.t) : M W unit :=
  let files := default [] (Req.files req) in
  let b := Req.body req in
  new_uploaded >>
  upload_loop files >>
  ts <- now ;;
  ups <- read_uploaded ;;
  await sheets_values_append ValuesAppend (append_params (row_of ts b ups)) >>
  res_json (Success ups).

(** The state after [const uploaded = []]. *)
Definition fresh {W} (s : State W) : State W :=
  mkState (env s) (tmp s) [] (log s).

(** The response of the [catch] block to the thrown [e]. *)
Definition server_error (e : JsError) : Event :=
  Respond 500 (Failure (or_else (message e) msg_server)).

(** What the [try] block throws, if anything. *)
Definition thrown `{Services W} (req : Req.t) (s : State W) : option JsError :=
  match snd (upload_try req s) with
  | inl e => Some e
  | inr _ => None
  end.

(** The condition under which the [try] block reaches line 97. *)
Definition passes_validation (req : Req.t) : bool :=
  let files := default [] (Req.files req) in
  let b := Req.body req in
  negb (length files =? 0)%nat && negb (10 <? length files)%nat
  && negb (MAX_TOTAL <? totalSize files)%Z
  && (truthy (Body.firstName b) && truthy (Body.lastName b)
      && truthy (Body.phone b)).

(** ** The validation rules as the specification lists them *)

Inductive ValidationError :=
| NoFiles
| TooManyFiles
| PayloadTooLarge
| MissingFields.

Definition present (v : option string) : bool :=
  match v with
  | Some "" => false
  | Some _ => true
  | None => false
  end.

Definition total_bytes (files : list File.t) : Z :=
  foldr (fun f acc => (File.size f + acc)%Z) 0%Z files.

(** [holds v req]: the precondition whose failure is [v] is met. *)
Definition holds (v : ValidationError) (req : Req.t) : bool :=
  let files := default [] (Req.files req) in
  match v with
  | NoFiles => (1 <=? length files)%nat
  | TooManyFiles => (length files <=? 10)%nat
  | PayloadTooLarge => (total_bytes files <=? 100 * 1024 * 1024)%Z
  | MissingFields =>
      present (Body.firstName (Req.body req))
      && present (Body.lastName (Req.body req))
      && present (Body.phone (Req.body req))
  end.

Definition checks_in_order : list ValidationError :=
  [ NoFiles; TooManyFiles; PayloadTooLarge; MissingFields ].

Definition first_failed_check (req : Req.t) : option ValidationError :=
  find (fun v => negb (holds v req)) checks_in_order.

(** The message the handler sends for each failure. *)
Definition validation_message (v : ValidationError) : string :=
  match v with
  | NoFiles => msg_no_files
  | TooManyFiles => msg_too_many
  | PayloadTooLarge => msg_too_large
  | MissingFields => msg_missing
  end.

(** The temporary files the handler unlinks before a 400 response. *)
Definition unlinked_on (v : ValidationError) (req : Req.t) : list File.t :=
  match v with
  | MissingFields => default [] (Req.files req)
  | _ => []
  end.

(** ** A simulated cloud, to run the handler on concrete requests *)

Module Sim.

(** [objects]: identifier and name of the objects in the folder;
    [rows]: the rows of the sheet; [quota]: how many more objects the
    folder accepts; the three switches turn sharing, view links and the
    sheet on and off. *)
Record World := mkWorld {
  objects : list (string * string);
  rows : list (list (option string));
  quota : nat;
  sharing : bool;
  view_links : bool;
  sheet_online : bool;
  clock : string
}.

Definition create (p : CreateParams) (w : World) : World * (JsError + string) :=
  match quota w with
  | O => (w, inl (mkError (Some "The user's Drive storage quota has been exceeded.")))
  | S q =>
      let fileId := "file-" +:+ toString (length (objects w)) in
      (mkWorld (objects w ++ [(fileId, resource_name p)]) (rows w) q
         (sharing w) (view_links w) (sheet_online w) (clock w),
       inr fileId)
  end.

Definition permit (p : PermissionParams) (w : World) : World * (JsError + unit) :=
  if sharing w then (w, inr tt)
  else (w, inl (mkError (Some "Insufficient permissions for this file."))).

Definition get (p : GetParams) (w : World) : World * (JsError + Meta.t) :=
  match find (fun o => String.eqb (fst o) (get_fileId p)) (objects w) with
  | Some (fileId, nm) =>
      (w, inr (Meta.mk fileId nm
                 (if view_links w
                  then Some ("https://drive.google.com/file/d/" +:+ fileId +:+ "/view")
                  else None)))
  | None => (w, inl (mkError (Some ("File not found: " +:+ get_fileId p))))
  end.

Definition append (p : AppendParams) (w : World) : World * (JsError + unit) :=
  if sheet_online w then
    (mkWorld (objects w) (rows w ++ values p) (quota w) (sharing w)
       (view_links w) (sheet_online w) (clock w), inr tt)
  else (w, inl (mkError (Some "The service is currently unavailable."))).

#[global] Instance services : Services World := {|
  drive_files_create := create;
  drive_permissions_create := permit;
  drive_files_get := get;
  sheets_values_append := append;
  Date_toISOString := clock;
  DRIVE_FOLDER_ID := "folder-1";
  SHEETS_ID := "sheet-1"
|}.

Definition world (q : nat) (share links online : bool) : World :=
  mkWorld [] [] q share links online "2024-05-01T10:00:00.000Z".

Definition photo (n : string) (bytes : Z) : File.t :=
  File.mk (n +:+ ".png") "image/png" bytes ("tmp_uploads/" +:+ n).

Definition ali : Body.t :=
  Body.mk (Some "Ali") (Some "Valiyev") (Some "+998901234567").

Definition three : list File.t :=
  [ photo "a" 1024; photo "b" 2048; photo "c" 4096 ].

Definition two_big : list File.t :=
  [ photo "x" 62914560; photo "y" 62914560 ].

(** The state in which the handler starts: multer has written the files. *)
Definition start (w : World) (files : list File.t) : State World :=
  mkState w (list_to_set (paths files)) [] [].

(** Three small photos from Ali. *)
Definition req3 : Req.t := Req.mk (Some three) ali.

(** The same without a last name. *)
Definition anonymous : Req.t :=
  Req.mk (Some three) (Body.mk (Some "Ali") None (Some "+998901234567")).

(** Two photos of 60 MiB each: every file is below multer's 100 MiB limit
    per file, the total is above the handler's limit. *)
Definition req_big : Req.t := Req.mk (Some two_big) ali.

(** Everything works. *)
Definition healthy : State World := start (world 5 true true true) three.

(** The folder accepts one more object only. *)
Definition quota1 : State World := start (world 1 true true true) three.

(** Permission calls are rejected and the metadata has no view link. *)
Definition unshared : State World := start (world 5 false false true) three.

(** The spreadsheet service is down. *)
Definition offline : State World := start (world 5 true true false) three.

Definition big_start : State World := start (world 5 true true true) two_big.

Definition quota_exceeded : JsError :=
  mkError (Some "The user's Drive storage quota has been exceeded.").

Definition forbidden : JsError :=
  mkError (Some "Insufficient permissions for this file.").

Definition unavailable : JsError :=
  mkError (Some "The service is currently unavailable.").

End Sim.

(** ** More ways to read a run *)

(** The identifiers that successful create calls returned, in order. *)
Fixpoint created_ids (evs : list Event) : list string :=
  match evs with
  | [] => []
  | FilesCreate _ (inr fileId) :: rest => fileId :: created_ids rest
  | _ :: rest => created_ids rest
  end.

(** [confined files ids ev]: the event [ev] stays within what the request
    and the configuration name: a create for a received file, a
    permission or metadata call on an identifier of [ids], an append to
    the configured sheet, an unlink of a received file's path, a
    response; never a delete. *)
Definition confined `{Services W} (files : list File.t) (ids : list string)
    (ev : Event) : Prop :=
  match ev with
  | FilesCreate p _ => exists f, f ∈ files /\ p = create_params f
  | PermissionsCreate p _ =>
      perm_fileId p ∈ ids /\ perm_role p = "reader" /\ perm_type p = "anyone"
  | FilesGet p _ => get_fileId p ∈ ids
  | FilesDelete _ => False
  | ValuesAppend p _ =>
      spreadsheetId p = SHEETS_ID /\ range p = "Sheet1!A:Z" /\
      valueInputOption p = "USER_ENTERED" /\ length (values p) = 1
  | UnlinkSync path => path ∈ paths files
  | Respond _ _ => True
  end.

(** The status of the response that ends a log. *)
Definition last_status (evs : list Event) : option nat :=
  match last evs with
  | Some (Respond status _) => Some status
  | _ => None
  end.

(** The requests lines 86-95 let through, in arithmetic. *)
Definition acceptable (req : Req.t) : Prop :=
  let files := default [] (Req.files req) in
  1 <= length files <= 10 /\
  (totalSize files <= 104857600)%Z /\
  exists fn ln ph,
    Body.firstName (Req.body req) = Some fn /\ fn <> "" /\
    Body.lastName (Req.body req) = Some ln /\ ln <> "" /\
    Body.phone (Req.body req) = Some ph /\ ph <> "".

(** ** The handler and the globals [drive] and [sheets] (lines 64-72)

    [let drive, sheets;] are assigned in the callback of
    [googleAuth.getClient().then(...)], while [app.listen] on line 136 runs
    in the first turn of the script: a request can reach the handler
    while both are still [undefined].  A run of the handler reads the
    globals it finds; they are assigned together and never reset, and no
    [await] stands between the validation and the first read on line
    101. *)

Record DriveClient (W : Type) := mkDrive {
  files_create : CreateParams -> W -> W * (JsError + string);
  permissions_create : PermissionParams -> W -> W * (JsError + unit);
  files_get : GetParams -> W -> W * (JsError + Meta.t)
}.

Record SheetsClient (W : Type) := mkSheets {
  values_append : AppendParams -> W -> W * (JsError + unit)
}.

Record Globals (W : Type) := mkGlobals {
  drive : option (DriveClient W);
  sheets : option (SheetsClient W)
}.

Arguments mkDrive {W}.
Arguments files_create {W}.
Arguments permissions_create {W}.
Arguments files_get {W}.
Arguments mkSheets {W}.
Arguments values_append {W}.
Arguments mkGlobals {W}.
Arguments drive {W}.
Arguments sheets {W}.

(** The [TypeError] of reading the property [prop] of [undefined] (V8's
    wording). *)
Definition TypeError_undefined (prop : string) : JsError :=
  mkError (Some ("Cannot read properties of undefined (reading '"
                 +:+ prop +:+ "')")).

(** [g.prop] for a global [g] that may be [undefined]. *)
Definition member {W C} (g : option C) (prop : string) : M W C :=
  fun s =>
    match g with
    | Some c => (s, inr c)
    | None => (s, inl (TypeError_undefined prop))
    end.

(** Before the callback of line 65 has run. *)
Definition initial_globals {W} : Globals W := mkGlobals None None.

(** After it has run (lines 66-67). *)
Definition ready_globals `{Services W} : Globals W :=
  mkGlobals
    (Some (mkDrive drive_files_create drive_permissions_create
             drive_files_get))
    (Some (mkSheets sheets_values_append)).

Section HandlerOnGlobals.

Context {W : Type} `{Services W}.

Variable g : Globals W.

(** Lines 99-112, reading [drive] where the source does. *)
Definition upload_one_on (f : File.t) : M W unit :=
  d <- member (drive g) "files" ;;
  fileId <- await (files_create d) FilesCreate (create_params f) ;;
  try_catch
    (d <- member (drive g) "permissions" ;;
     await (permissions_create d) PermissionsCreate (permission_params fileId))
    (fun _ => ret tt) >>
  d <- member (drive g) "files" ;;
  meta <- await (files_get d) FilesGet (get_params fileId) ;;
  push (entry_of meta) >>
  try_unlink f.

Fixpoint upload_loop_on (files : list File.t) : M W unit :=
  match files with
  | [] => ret tt
  | f :: rest => upload_one_on f >> upload_loop_on rest
  end.

(** Lines 85-127, reading [drive] and [sheets] where the source does. *)
Definition upload_try_on (req : Req.t) : M W unit :=
  let files := default [] (Req.files req) in
  if (length files =? 0)%nat then
    res_status_json 400 (Failure msg_no_files)
  else if (10 <? length files)%nat then
    res_status_json 400 (Failure msg_too_many)
  else if (MAX_TOTAL <? totalSize files)%Z then
    res_status_json 400 (Failure msg_too_large)
  else
    let b := Req.body req in
    if negb (truthy (Body.firstName b)) || negb (truthy (Body.lastName b))
       || negb (truthy (Body.phone b)) then
      forEach files try_unlink >>
      res_status_json 400 (Failure msg_missing)
    else
      new_uploaded >>
      upload_loop_on files >>
      ts <- now ;;
      ups <- read_uploaded ;;
      sh <- member (sheets g) "spreadsheets" ;;
      await (values_append sh) ValuesAppend (append_params (row_of ts b ups)) >>
      res_json (Success ups).

Definition upload_handler_on (req : Req.t) : M W unit :=
  try_catch (upload_try_on req) (upload_catch req).

End HandlerOnGlobals.

(** ** Start-up (lines 30-62) *)

(** What the script takes from its host: [JSON.parse], [path.join],
    [fs.existsSync] and [__dirname]. *)
Class Host := {
  Json : Type;
  JSON_parse : string -> JsError + Json;
  path_join : string -> string -> string;
  existsSync : string -> bool;
  dirname : string
}.

(** [process.env.PORT || process.env.PORT_NUMBER || 10000]: a string of
    the environment or the number 10000. *)
Inductive Port :=
| PortText (text : string)
| PortNumber (n : Z).

(** [v] when [v] is truthy: what [if(v)] and [v || ...] let through. *)
Definition if_truthy (v : option string) : option string :=
  if truthy v then v else None.

Definition getPORT (env : gmap string string) : Port :=
  match if_truthy (env !! "PORT") with
  | Some p => PortText p
  | None =>
      match if_truthy (env !! "PORT_NUMBER") with
      | Some q => PortText q
      | None => PortNumber 10000
      end
  end.

Definition SCOPES : list string :=
  [ "https://www.googleapis.com/auth/drive";
    "https://www.googleapis.com/auth/spreadsheets" ].

(** The argument of [new google.auth.GoogleAuth(...)]. *)
Inductive GoogleAuth `{Host} :=
| WithCredentials (credentials : Json) (scopes : list string)
| WithKeyFile (keyFile : string) (scopes : list string).

Definition msg_config : string :=
  "Please set DRIVE_FOLDER_ID and SHEETS_ID in environment variables (or .env).".
Definition msg_bad_json : string := "Invalid GOOGLE_SERVICE_ACCOUNT JSON:".
Definition msg_no_credentials : string :=
  "No credentials.json found and GOOGLE_SERVICE_ACCOUNT env var not set.".

(** How the first turn of the script ends: [process.exit(code)] after a
    [console.error], or the server listening with the configuration and
    the auth object it built. *)
Inductive Boot `{Host} :=
| Exit (code : Z) (console_error : string)
| Listen (port : Port) (folder sheet : option string) (auth : GoogleAuth).

(** Lines 30-62 and 136, on the environment left by [dotenv]. *)
Definition boot `{Host} (env : gmap string string) : Boot :=
  let port := getPORT env in
  let folder := env !! "DRIVE_FOLDER_ID" in
  let sheet := env !! "SHEETS_ID" in
  if negb (truthy folder) || negb (truthy sheet) then Exit 1 msg_config
  else
    match if_truthy (env !! "GOOGLE_SERVICE_ACCOUNT") with
    | Some text =>
        match JSON_parse text with
        | inr credentials =>
            Listen port folder sheet (WithCredentials credentials SCOPES)
        | inl _ => Exit 1 msg_bad_json
        end
    | None =>
        let keyPath := path_join dirname "credentials.json" in
        if negb (existsSync keyPath) then Exit 1 msg_no_credentials
        else Listen port folder sheet (WithKeyFile keyPath SCOPES)
    end.

(** ** The script after its first turn (lines 64-72) *)

Definition msg_auth : string := "Google auth error:".

(** How the chain [googleAuth.getClient().then(...)] stands: not settled
    yet, settled with the callback of lines 65-68 run, or rejected (by
    [getClient] or by a throw in that callback). *)
Inductive Promise :=
| Pending
| Fulfilled
| Rejected (err : JsError).

(** The process: gone after a [process.exit] and its [console.error], or
    serving, with [drive] and [sheets] assigned or not. *)
Inductive Script `{Host} :=
| Exited (code : Z) (console_error : string)
| Serving (port : Port) (folder sheet : option string) (auth : GoogleAuth)
    (client_ready : bool).

(** Lines 30-72 and 136.  A first turn that exits never calls
    [getClient]; a rejection reaches the [catch] of lines 69-72. *)
Definition script `{Host} (env : gmap string string) (p : Promise) : Script :=
  match boot env with
  | Exit code msg => Exited code msg
  | Listen port folder sheet auth =>
      match p with
      | Pending => Serving port folder sheet auth false
      | Fulfilled => Serving port folder sheet auth true
      | Rejected _ => Exited 1 msg_auth
      end
  end.

(** ** A second simulated cloud: metadata lags behind uploads *)

Module Lagging.

(** The world is the number of objects created so far.  Every create
    succeeds; the metadata of the second object cannot be read yet. *)
Definition create (p : CreateParams) (n : nat) : nat * (JsError + string) :=
  (S n, inr ("file-" +:+ toString n)).

Definition permit (p : PermissionParams) (n : nat) : nat * (JsError + unit) :=
  (n, inr tt).

Definition not_found : JsError := mkError (Some "File not found: file-1.").

Definition get (p : GetParams) (n : nat) : nat * (JsError + Meta.t) :=
  if String.eqb (get_fileId p) "file-1" then (n, inl not_found)
  else (n, inr (Meta.mk (get_fileId p) "photo.png" None)).

Definition append (p : AppendParams) (n : nat) : nat * (JsError + unit) :=
  (n, inr tt).

#[global] Instance services : Services nat := {|
  drive_files_create := create;
  drive_permissions_create := permit;
  drive_files_get := get;
  sheets_values_append := append;
  Date_toISOString := fun _ => "2024-05-01T10:00:00.000Z";
  DRIVE_FOLDER_ID := "folder-1";
  SHEETS_ID := "sheet-1"
|}.

Definition start : State nat :=
  mkState 0 (list_to_set (paths Sim.three)) [] [].

End Lagging.

(** ** A third simulated cloud: every upload is refused without a word *)

Module Silent.

(** The world has no state; [drive.files.create] rejects with an error
    that has no [message]. *)
Definition create (p : CreateParams) (w : unit) : unit * (JsError + string) :=
  (w, inl (mkError None)).

Definition permit (p : PermissionParams) (w : unit) : unit * (JsError + unit) :=
  (w, inr tt).

Definition get (p : GetParams) (w : unit) : unit * (JsError + Meta.t) :=
  (w, inr (Meta.mk (get_fileId p) "photo.png" None)).

Definition append (p : AppendParams) (w : unit) : unit * (JsError + unit) :=
  (w, inr tt).

#[global] Instance services : Services unit := {|
  drive_files_create := create;
  drive_permissions_create := permit;
  drive_files_get := get;
  sheets_values_append := append;
  Date_toISOString := fun _ => "2024-05-01T10:00:00.000Z";
  DRIVE_FOLDER_ID := "folder-1";
  SHEETS_ID := "sheet-1"
|}.

Definition start : State unit :=
  mkState tt (list_to_set (paths Sim.three)) [] [].

End Silent.

(** ** Proof steps for decision tables *)

(** Breaks the hypotheses of the right-to-left half of a table apart and
    closes the branches that contradict the case at hand. *)
Ltac table_back :=
  intros;
  repeat match goal with
         | H : _ /\ _ |- _ => destruct H
         | H : _ \/ _ |- _ => destruct H
         | H : exists _, _ |- _ => destruct H
         end;
  simplify_eq; try congruence; try reflexivity.

(** * Properties *)

Section Properties.

Context {W : Type} {svc : Services W}.

Implicit Types (s : State W) (files : list File.t) (f : File.t).
Implicit Types (done : list Done) (evs : list Event).

(** ** Running the pieces *)

Lemma state_eq s1 s2 :
  env s1 = env s2 -> tmp s1 = tmp s2 -> uploaded s1 = uploaded s2 ->
  log s1 = log s2 -> s1 = s2.
Proof.
  destruct s1, s2; simpl; intros; subst; reflexivity.
Qed.

Lemma try_unlink_run f s :
  try_unlink f s =
  (mkState (env s) (tmp s ∖ {[File.path f]}) (uploaded s)
     (log s ++ [UnlinkSync (File.path f)]), inr tt).
Proof.
  unfold try_unlink, try_catch, unlinkSync.
  destruct (decide (File.path f ∈ tmp s)); reflexivity.
Qed.

Lemma forEach_try_unlink files : forall s,
  forEach files try_unlink s =
  (mkState (env s) (tmp s ∖ list_to_set (paths files)) (uploaded s)
     (log s ++ cleanup_events files), inr tt).
Proof.
  induction files as [|f rest IH]; intros s; simpl.
  - unfold ret. f_equal. apply state_eq; simpl; auto.
    + set_solver.
    + now rewrite app_nil_r.
  - unfold bind. rewrite try_unlink_run, IH. f_equal.
    apply state_eq; simpl; auto.
    + set_solver.
    + unfold cleanup_events. simpl. now rewrite <- app_assoc.
Qed.

Lemma upload_one_create_fails f s w e :
  drive_files_create (create_params f) (env s) = (w, inl e) ->
  upload_one f s =
  (mkState w (tmp s) (uploaded s) (log s ++ abort_events f (CreateFailed e)),
   inl e).
Proof.
  intros Hc. unfold upload_one, bind, await. now rewrite Hc.
Qed.

Lemma upload_one_get_fails f s w1 fileId w2 pr w3 e :
  drive_files_create (create_params f) (env s) = (w1, inr fileId) ->
  drive_permissions_create (permission_params fileId) w1 = (w2, pr) ->
  drive_files_get (get_params fileId) w2 = (w3, inl e) ->
  upload_one f s =
  (mkState w3 (tmp s) (uploaded s)
     (log s ++ abort_events f (GetFailed fileId pr e)), inl e).
Proof.
  intros Hc Hp Hg. unfold upload_one, bind, await, try_catch, ret.
  rewrite Hc. simpl. rewrite Hp.
  destruct pr as [ep|[]]; simpl; rewrite Hg; simpl;
    now rewrite <- !app_assoc.
Qed.

Lemma upload_one_done f s w1 fileId w2 pr w3 meta :
  drive_files_create (create_params f) (env s) = (w1, inr fileId) ->
  drive_permissions_create (permission_params fileId) w1 = (w2, pr) ->
  drive_files_get (get_params fileId) w2 = (w3, inr meta) ->
  upload_one f s =
  (mkState w3 (tmp s ∖ {[File.path f]}) (uploaded s ++ [entry_of meta])
     (log s ++ file_events f (fileId, pr, meta)), inr tt).
Proof.
  intros Hc Hp Hg. unfold upload_one, bind, await, try_catch, ret, push.
  rewrite Hc. simpl. rewrite Hp.
  destruct pr as [ep|[]]; simpl; rewrite Hg; simpl;
    rewrite try_unlink_run; simpl; now rewrite <- !app_assoc.
Qed.

Lemma upload_loop_app files1 files2 s :
  upload_loop (files1 ++ files2) s =
  (upload_loop files1 >> upload_loop files2) s.
Proof.
  revert s. induction files1 as [|f rest IH]; intros s; simpl.
  - reflexivity.
  - unfold bind. destruct (upload_one f s) as [s1 [e|[]]].
    + reflexivity.
    + rewrite IH. reflexivity.
Qed.

(** Every run of the loop: either all files complete, or the first [i]
    complete and the iteration on file [i] throws. *)
Lemma upload_loop_run files : forall s,
  (exists done,
      length done = length files /\
      snd (upload_loop files s) = inr tt /\
      tmp (fst (upload_loop files s)) = tmp s ∖ list_to_set (paths files) /\
      uploaded (fst (upload_loop files s)) = uploaded s ++ entries done /\
      log (fst (upload_loop files s)) = log s ++ loop_events files done)
  \/
  (exists i f done a,
      files !! i = Some f /\ length done = i /\
      snd (upload_loop files s) = inl (abort_error a) /\
      tmp (fst (upload_loop files s)) =
        tmp s ∖ list_to_set (paths (take i files)) /\
      uploaded (fst (upload_loop files s)) = uploaded s ++ entries done /\
      log (fst (upload_loop files s)) =
        log s ++ loop_events (take i files) done ++ abort_events f a).
Proof.
  induction files as [|f rest IH]; intros s.
  - left. exists []. simpl. repeat split.
    + set_solver.
    + now rewrite app_nil_r.
    + now rewrite app_nil_r.
  - simpl upload_loop. unfold bind.
    destruct (drive_files_create (create_params f) (env s))
      as [w1 [e|fileId]] eqn:Hc.
    { right. exists 0, f, [], (CreateFailed e).
      rewrite (upload_one_create_fails _ _ _ _ Hc). simpl.
      repeat split.
      - set_solver.
      - now rewrite app_nil_r. }
    destruct (drive_permissions_create (permission_params fileId) w1)
      as [w2 pr] eqn:Hp.
    destruct (drive_files_get (get_params fileId) w2)
      as [w3 [e|meta]] eqn:Hg.
    { right. exists 0, f, [], (GetFailed fileId pr e).
      rewrite (upload_one_get_fails _ _ _ _ _ _ _ _ Hc Hp Hg). simpl.
      repeat split.
      - set_solver.
      - now rewrite app_nil_r. }
    rewrite (upload_one_done _ _ _ _ _ _ _ _ Hc Hp Hg).
    set (s1 := mkState _ _ _ _).
    destruct (IH s1) as [(done & Hlen & Hr & Ht & Hu & Hl)
                        |(i & g & done & a & Hi & Hlen & Hr & Ht & Hu & Hl)].
    + left. exists ((fileId, pr, meta) :: done). simpl.
      repeat split; auto.
      * rewrite Ht. subst s1. simpl. set_solver.
      * rewrite Hu. subst s1. simpl. now rewrite <- app_assoc.
      * rewrite Hl. subst s1. simpl. unfold loop_events. simpl.
        now rewrite <- !app_assoc.
    + right. exists (S i), g, ((fileId, pr, meta) :: done), a. simpl.
      repeat split; auto.
      * rewrite Ht. subst s1. simpl. set_solver.
      * rewrite Hu. subst s1. simpl. now rewrite <- app_assoc.
      * rewrite Hl. subst s1. simpl. unfold loop_events. simpl.
        now rewrite <- !app_assoc.
Qed.

(** ** Reading event lists *)

Lemma created_app evs1 evs2 :
  created (evs1 ++ evs2) = created evs1 ++ created evs2.
Proof.
  induction evs1 as [|ev rest IH]; simpl.
  - reflexivity.
  - destruct ev; simpl; now rewrite IH.
Qed.

Lemma created_cleanup files : created (cleanup_events files) = [].
Proof.
  unfold cleanup_events.
  induction (paths files) as [|p ps IH]; simpl; auto.
Qed.

Lemma created_loop_events files : forall done,
  length done = length files ->
  created (loop_events files done) = map create_params files.
Proof.
  unfold loop_events.
  induction files as [|f rest IH]; intros [|[[fileId pr] meta] done] Hlen;
    simpl in *; try discriminate; auto.
  f_equal. apply IH. lia.
Qed.

Lemma loop_events_Forall (P : Event -> Prop) files :
  (forall p r, P (FilesCreate p r)) ->
  (forall p r, P (PermissionsCreate p r)) ->
  (forall p r, P (FilesGet p r)) ->
  (forall p, P (UnlinkSync p)) ->
  forall done, Forall P (loop_events files done).
Proof.
  intros Hc Hp Hg Hu. unfold loop_events.
  induction files as [|f rest IH]; intros [|[[fileId pr] meta] done];
    simpl; repeat constructor; auto.
Qed.

Lemma cleanup_events_Forall (P : Event -> Prop) files :
  (forall p, P (UnlinkSync p)) -> Forall P (cleanup_events files).
Proof.
  intros Hu. unfold cleanup_events.
  induction (paths files) as [|p ps IH]; simpl; constructor; auto.
Qed.

Lemma unlink_in_loop_events files : forall done g,
  length done = length files -> g ∈ files ->
  UnlinkSync (File.path g) ∈ loop_events files done.
Proof.
  unfold loop_events.
  induction files as [|f rest IH]; intros [|[[fileId pr] meta] done] g Hlen Hin;
    simpl in *; try discriminate.
  - inversion Hin.
  - apply elem_of_cons in Hin as [->|Hin].
    + do 3 apply list_elem_of_further. apply list_elem_of_here.
    + do 4 apply list_elem_of_further. apply IH; auto.
Qed.

Lemma paths_take_subseteq i files :
  (list_to_set (paths (take i files)) : gset string)
    ⊆ list_to_set (paths files).
Proof.
  intros p Hp. apply elem_of_list_to_set in Hp. apply elem_of_list_to_set.
  unfold paths in *. apply list_elem_of_In in Hp. apply list_elem_of_In.
  apply in_map_iff in Hp as (g & <- & Hg). apply in_map.
  apply list_elem_of_In. apply list_elem_of_In in Hg.
  eapply subseteq_take; eauto.
Qed.

Lemma path_in_paths g files :
  g ∈ files -> File.path g ∈ (list_to_set (paths files) : gset string).
Proof.
  intros Hg. apply elem_of_list_to_set. apply list_elem_of_In.
  unfold paths. apply in_map. now apply list_elem_of_In.
Qed.

(** ** Validation *)

Lemma totalSize_total_bytes files : totalSize files = total_bytes files.
Proof.
  unfold totalSize, total_bytes.
  assert (G : forall a,
             fold_left (fun (t : Z) g => (t + File.size g)%Z) files a =
             (a + foldr (fun g acc => (File.size g + acc)%Z) 0%Z files)%Z).
  { induction files as [|f rest IH]; intros a; simpl.
    - lia.
    - rewrite IH. lia. }
  rewrite G. lia.
Qed.

Lemma present_truthy (v : option string) : present v = truthy v.
Proof.
  destruct v as [[|c r]|]; reflexivity.
Qed.

(** Each precondition of the specification is the negation of the
    condition the handler tests. *)
Lemma holds_code v req :
  holds v req =
  let files := default [] (Req.files req) in
  let b := Req.body req in
  match v with
  | NoFiles => negb (length files =? 0)%nat
  | TooManyFiles => negb (10 <? length files)%nat
  | PayloadTooLarge => negb (MAX_TOTAL <? totalSize files)%Z
  | MissingFields =>
      negb (negb (truthy (Body.firstName b)) || negb (truthy (Body.lastName b))
            || negb (truthy (Body.phone b)))
  end.
Proof.
  destruct v; simpl.
  - destruct (length (default [] (Req.files req))); reflexivity.
  - apply Nat.leb_antisym.
  - rewrite totalSize_total_bytes. apply Z.leb_antisym.
  - rewrite !present_truthy.
    destruct (truthy (Body.firstName (Req.body req))),
             (truthy (Body.lastName (Req.body req))),
             (truthy (Body.phone (Req.body req))); reflexivity.
Qed.

Lemma first_failed_check_None req :
  first_failed_check req = None <-> passes_validation req = true.
Proof.
  unfold first_failed_check, passes_validation, checks_in_order.
  cbn [find]. rewrite !holds_code. cbv beta zeta.
  destruct (length (default [] (Req.files req)) =? 0)%nat; simpl;
    [split; discriminate|].
  destruct (10 <? length (default [] (Req.files req)))%nat; simpl;
    [split; discriminate|].
  destruct (MAX_TOTAL <? totalSize (default [] (Req.files req)))%Z; simpl;
    [split; discriminate|].
  destruct (truthy (Body.firstName (Req.body req))),
           (truthy (Body.lastName (Req.body req))),
           (truthy (Body.phone (Req.body req))); simpl;
    split; (discriminate || reflexivity).
Qed.

Lemma cleanup_not_remote files :
  Forall (fun ev => is_remote ev = false) (cleanup_events files).
Proof.
  unfold cleanup_events.
  induction (paths files) as [|p ps IH]; simpl; constructor; auto.
Qed.

Lemma validation_message_inj v1 v2 :
  validation_message v1 = validation_message v2 -> v1 = v2.
Proof.
  destruct v1, v2; intros Hm; (reflexivity || discriminate Hm).
Qed.

(** A request that fails validation: the events and the final state. *)
Lemma upload_handler_invalid req s v :
  first_failed_check req = Some v ->
  upload_handler req s =
    (mkState (env s)
       (tmp s ∖ list_to_set (paths (unlinked_on v req)))
       (uploaded s)
       (log s ++ cleanup_events (unlinked_on v req)
              ++ [Respond 400 (Failure (validation_message v))]),
     inr tt).
Proof.
  intros Hf.
  unfold first_failed_check, checks_in_order in Hf. cbn [find] in Hf.
  rewrite !holds_code in Hf. cbv beta zeta in Hf.
  unfold upload_handler, try_catch, upload_try.
  destruct (length (default [] (Req.files req)) =? 0)%nat; simpl in *.
  { injection Hf as <-. unfold res_status_json, emit. simpl.
    f_equal. apply state_eq; simpl; auto. set_solver. }
  destruct (10 <? length (default [] (Req.files req)))%nat; simpl in *.
  { injection Hf as <-. unfold res_status_json, emit. simpl.
    f_equal. apply state_eq; simpl; auto. set_solver. }
  destruct (MAX_TOTAL <? totalSize (default [] (Req.files req)))%Z;
    simpl in *.
  { injection Hf as <-. unfold res_status_json, emit. simpl.
    f_equal. apply state_eq; simpl; auto. set_solver. }
  destruct (negb (truthy (Body.firstName (Req.body req)))
            || negb (truthy (Body.lastName (Req.body req)))
            || negb (truthy (Body.phone (Req.body req)))); simpl in *.
  { injection Hf as <-. unfold bind. rewrite forEach_try_unlink.
    unfold res_status_json, emit. simpl.
    now rewrite <- app_assoc. }
  discriminate Hf.
Qed.

(** C3.  The handler answers with the message of the first precondition,
    in the order [NoFiles], [TooManyFiles], [PayloadTooLarge],
    [MissingFields], that the request does not meet: status 400, that
    message alone (the four messages are pairwise different), the outside
    world untouched, and nothing but [unlinkSync] calls before the
    response. *)
Theorem C3_validation_in_order req s v :
  first_failed_check req = Some v ->
  upload_handler req s =
    (mkState (env s)
       (tmp s ∖ list_to_set (paths (unlinked_on v req)))
       (uploaded s)
       (log s ++ cleanup_events (unlinked_on v req)
              ++ [Respond 400 (Failure (validation_message v))]),
     inr tt)
  /\ Forall (fun ev => is_remote ev = false)
       (cleanup_events (unlinked_on v req))
  /\ (forall v', validation_message v' = validation_message v -> v' = v).
Proof.
  intros Hf. split; [|split].
  - now apply upload_handler_invalid.
  - apply cleanup_not_remote.
  - intros v' Hm. now apply validation_message_inj.
Qed.

(** C10.  A request without a [files] array is handled as one with an
    empty array: nothing is thrown and the response is the 400 of the
    first precondition. *)
Theorem C10_absent_files_is_no_files (b : Body.t) s :
  upload_handler (Req.mk None b) s = upload_handler (Req.mk (Some []) b) s
  /\ upload_handler (Req.mk None b) s =
     (mkState (env s) (tmp s) (uploaded s)
        (log s ++ [Respond 400 (Failure msg_no_files)]), inr tt).
Proof.
  split; reflexivity.
Qed.

(** ** The handler after validation *)

Lemma upload_try_valid req s :
  passes_validation req = true -> upload_try req s = process req s.
Proof.
  unfold passes_validation, upload_try, process. intros Hv.
  apply andb_prop in Hv as [Hv Hf]. apply andb_prop in Hv as [Hv Hs].
  apply andb_prop in Hv as [Hn Hm].
  apply negb_true_iff in Hn, Hm, Hs. rewrite Hn, Hm, Hs.
  apply andb_prop in Hf as [Hf Hp]. apply andb_prop in Hf as [Hf Hl].
  now rewrite Hf, Hl, Hp.
Qed.

Lemma valid_has_files req :
  passes_validation req = true ->
  Req.files req = Some (default [] (Req.files req)).
Proof.
  unfold passes_validation. destruct (Req.files req) as [fs|]; simpl.
  - reflexivity.
  - discriminate.
Qed.

(** The loop throws [e]: so does the [try] block. *)
Lemma try_loop_throws req s files s1 e :
  passes_validation req = true ->
  Req.files req = Some files ->
  upload_loop files (fresh s) = (s1, inl e) ->
  upload_try req s = (s1, inl e).
Proof.
  intros Hv Hf Hl. rewrite (upload_try_valid _ _ Hv).
  unfold process. rewrite Hf. simpl.
  unfold bind at 1. simpl. fold (fresh s).
  unfold bind at 1. now rewrite Hl.
Qed.

(** The loop completes and the append succeeds. *)
Lemma try_append_ok req s files s1 w :
  passes_validation req = true ->
  Req.files req = Some files ->
  upload_loop files (fresh s) = (s1, inr tt) ->
  sheets_values_append
    (append_params
       (row_of (Date_toISOString (env s1)) (Req.body req) (uploaded s1)))
    (env s1) = (w, inr tt) ->
  upload_try req s =
  (mkState w (tmp s1) (uploaded s1)
     (log s1 ++
        [ ValuesAppend
            (append_params
               (row_of (Date_toISOString (env s1)) (Req.body req)
                  (uploaded s1))) (inr tt);
          Respond 200 (Success (uploaded s1)) ]), inr tt).
Proof.
  intros Hv Hf Hl Ha. rewrite (upload_try_valid _ _ Hv).
  unfold process. rewrite Hf. simpl.
  unfold bind at 1. simpl. fold (fresh s).
  unfold bind at 1. rewrite Hl.
  unfold bind, now, read_uploaded, await. rewrite Ha.
  unfold res_json, res_status_json, emit. simpl.
  now rewrite <- app_assoc.
Qed.

(** The loop completes and the append throws [e]. *)
Lemma try_append_throws req s files s1 w e :
  passes_validation req = true ->
  Req.files req = Some files ->
  upload_loop files (fresh s) = (s1, inr tt) ->
  sheets_values_append
    (append_params
       (row_of (Date_toISOString (env s1)) (Req.body req) (uploaded s1)))
    (env s1) = (w, inl e) ->
  upload_try req s =
  (mkState w (tmp s1) (uploaded s1)
     (log s1 ++
        [ ValuesAppend
            (append_params
               (row_of (Date_toISOString (env s1)) (Req.body req)
                  (uploaded s1))) (inl e) ]), inl e).
Proof.
  intros Hv Hf Hl Ha. rewrite (upload_try_valid _ _ Hv).
  unfold process. rewrite Hf. simpl.
  unfold bind at 1. simpl. fold (fresh s).
  unfold bind at 1. rewrite Hl.
  unfold bind, now, read_uploaded, await. now rewrite Ha.
Qed.

(** The [catch] block on a request that carried files. *)
Lemma upload_catch_run req files e s1 :
  Req.files req = Some files ->
  upload_catch req e s1 =
  (mkState (env s1) (tmp s1 ∖ list_to_set (paths files)) (uploaded s1)
     (log s1 ++ cleanup_events files ++ [server_error e]), inr tt).
Proof.
  intros Hf. unfold upload_catch. rewrite Hf. unfold bind.
  rewrite forEach_try_unlink. unfold res_status_json, emit. simpl.
  now rewrite <- app_assoc.
Qed.

Lemma handler_loop_throws req s files s1 e :
  passes_validation req = true ->
  Req.files req = Some files ->
  upload_loop files (fresh s) = (s1, inl e) ->
  upload_handler req s =
  (mkState (env s1) (tmp s1 ∖ list_to_set (paths files)) (uploaded s1)
     (log s1 ++ cleanup_events files ++ [server_error e]), inr tt).
Proof.
  intros Hv Hf Hl. unfold upload_handler, try_catch.
  rewrite (try_loop_throws _ _ _ _ _ Hv Hf Hl).
  now apply upload_catch_run.
Qed.

Lemma handler_append_ok req s files s1 w :
  passes_validation req = true ->
  Req.files req = Some files ->
  upload_loop files (fresh s) = (s1, inr tt) ->
  sheets_values_append
    (append_params
       (row_of (Date_toISOString (env s1)) (Req.body req) (uploaded s1)))
    (env s1) = (w, inr tt) ->
  upload_handler req s =
  (mkState w (tmp s1) (uploaded s1)
     (log s1 ++
        [ ValuesAppend
            (append_params
               (row_of (Date_toISOString (env s1)) (Req.body req)
                  (uploaded s1))) (inr tt);
          Respond 200 (Success (uploaded s1)) ]), inr tt).
Proof.
  intros Hv Hf Hl Ha. unfold upload_handler, try_catch.
  now rewrite (try_append_ok _ _ _ _ _ Hv Hf Hl Ha).
Qed.

Lemma handler_append_throws req s files s1 w e :
  passes_validation req = true ->
  Req.files req = Some files ->
  upload_loop files (fresh s) = (s1, inr tt) ->
  sheets_values_append
    (append_params
       (row_of (Date_toISOString (env s1)) (Req.body req) (uploaded s1)))
    (env s1) = (w, inl e) ->
  upload_handler req s =
  (mkState w (tmp s1 ∖ list_to_set (paths files)) (uploaded s1)
     (log s1 ++
        ValuesAppend
          (append_params
             (row_of (Date_toISOString (env s1)) (Req.body req)
                (uploaded s1))) (inl e)
        :: cleanup_events files ++ [server_error e]), inr tt).
Proof.
  intros Hv Hf Hl Ha. unfold upload_handler, try_catch.
  rewrite (try_append_throws _ _ _ _ _ _ Hv Hf Hl Ha).
  rewrite (upload_catch_run _ _ _ _ Hf). simpl.
  now rewrite <- app_assoc.
Qed.

(** ** Failure of an upload *)

(** The loop run up to a failing [drive.files.create] on file [i]. *)
Lemma upload_loop_create_fails files i f s0 s1 w e :
  files !! i = Some f ->
  upload_loop (take i files) s0 = (s1, inr tt) ->
  drive_files_create (create_params f) (env s1) = (w, inl e) ->
  upload_loop files s0 =
  (mkState w (tmp s1) (uploaded s1)
     (log s1 ++ [FilesCreate (create_params f) (inl e)]), inl e).
Proof.
  intros Hi Hl Hc.
  rewrite <- (take_drop_middle _ _ _ Hi) at 1.
  rewrite upload_loop_app. unfold bind at 1. rewrite Hl.
  simpl upload_loop. unfold bind.
  now rewrite (upload_one_create_fails _ _ _ _ Hc).
Qed.

(** A completed run of the loop, read from its final state. *)
Lemma upload_loop_completed files s0 s1 :
  upload_loop files s0 = (s1, inr tt) ->
  exists done,
    length done = length files /\
    tmp s1 = tmp s0 ∖ list_to_set (paths files) /\
    uploaded s1 = uploaded s0 ++ entries done /\
    log s1 = log s0 ++ loop_events files done.
Proof.
  intros Hl.
  destruct (upload_loop_run files s0)
    as [(done & Hlen & _ & Ht & Hu & Hg)
       |(i & g & done & a & _ & _ & Hr & _)];
    rewrite Hl in *; simpl in *.
  - exists done. auto.
  - discriminate Hr.
Qed.

(** C1.  Validation passed, the first [i] files went through the loop
    (reaching the state [s1]) and [drive.files.create] then rejects file
    number [i] (counting from 0) with [e].  The handler throws nothing,
    its events are those of the [i] completed iterations, the failed
    create, one [unlinkSync] per received file and the response 500; a
    create call was issued for the first [i+1] files only; there is no
    append and no delete call, the outside world is left as the failed
    create left it; every file before [i] was unlinked inside the loop. *)
Theorem C1_upload_failure_aborts req s files i f s1 w e :
  passes_validation req = true ->
  Req.files req = Some files ->
  files !! i = Some f ->
  upload_loop (take i files) (fresh s) = (s1, inr tt) ->
  drive_files_create (create_params f) (env s1) = (w, inl e) ->
  exists done evs,
    length done = i /\
    evs = loop_events (take i files) done
          ++ FilesCreate (create_params f) (inl e)
          :: cleanup_events files
          ++ [Respond 500 (Failure (or_else (message e) msg_server))] /\
    upload_handler req s =
      (mkState w (tmp s ∖ list_to_set (paths files)) (entries done)
         (log s ++ evs), inr tt) /\
    created evs = map create_params (take (S i) files) /\
    Forall (fun ev => is_append ev = false) evs /\
    Forall (fun ev => is_delete ev = false) evs /\
    (forall g, g ∈ take i files ->
       (File.path g ∉ tmp s1) /\
       (UnlinkSync (File.path g) ∈ loop_events (take i files) done)).
Proof.
  intros Hv Hf Hi Hl Hc.
  destruct (upload_loop_completed _ _ _ Hl) as (done & Hlen & Ht & Hu & Hg).
  simpl in Ht, Hu, Hg.
  assert (Hlt : i < length files) by (eapply lookup_lt_Some; eauto).
  assert (Hti : length (take i files) = i) by (rewrite length_take; lia).
  exists done. eexists. split; [lia|]. split; [reflexivity|].
  split; [|split; [|split; [|split]]].
  - rewrite (handler_loop_throws _ _ _ _ _ Hv Hf
               (upload_loop_create_fails _ _ _ _ _ _ _ Hi Hl Hc)).
    f_equal. apply state_eq; simpl; auto.
    + rewrite Ht. pose proof (paths_take_subseteq i files). set_solver.
    + rewrite Hg. rewrite <- !app_assoc. reflexivity.
  - rewrite created_app, created_loop_events by lia. simpl.
    rewrite created_app, created_cleanup. simpl.
    rewrite (take_S_r _ _ _ Hi), map_app. reflexivity.
  - apply Forall_app. split.
    + apply loop_events_Forall; reflexivity.
    + constructor; [reflexivity|]. apply Forall_app. split.
      * apply cleanup_events_Forall; reflexivity.
      * repeat constructor.
  - apply Forall_app. split.
    + apply loop_events_Forall; reflexivity.
    + constructor; [reflexivity|]. apply Forall_app. split.
      * apply cleanup_events_Forall; reflexivity.
      * repeat constructor.
  - intros g Hin. split.
    + rewrite Ht. intros Hn. apply elem_of_difference in Hn as [_ Hn].
      apply Hn. now apply path_in_paths.
    + apply unlink_in_loop_events; auto.
Qed.

(** ** Every run after validation *)

(** The three ways the handler ends once validation has passed. *)
Lemma upload_handler_run req s :
  passes_validation req = true ->
  let files := default [] (Req.files req) in
  exists s' done rest,
    upload_handler req s = (s', inr tt) /\
    length done <= length files /\
    uploaded s' = entries done /\
    log s' = log s ++ loop_events (take (length done) files) done ++ rest /\
    ((length done = length files /\ thrown req s = None /\
      exists p, rest = [ValuesAppend p (inr tt);
                        Respond 200 (Success (entries done))])
     \/ (length done = length files /\
         exists p e, thrown req s = Some e /\
                     rest = ValuesAppend p (inl e)
                            :: cleanup_events files ++ [server_error e])
     \/ (exists f a, files !! length done = Some f /\
         thrown req s = Some (abort_error a) /\
         rest = abort_events f a
                ++ cleanup_events files ++ [server_error (abort_error a)])).
Proof.
  intros Hv files. pose proof (valid_has_files _ Hv) as Hf. fold files in Hf.
  destruct (upload_loop files (fresh s)) as [s1 r] eqn:Hl.
  destruct (upload_loop_run files (fresh s))
    as [(done & Hlen & Hr & _ & Hu & Hg)
       |(i & f & done & a & Hi & Hlen & Hr & _ & Hu & Hg)];
    rewrite Hl in *; simpl in Hr, Hu, Hg; subst r.
  - destruct (sheets_values_append
                (append_params
                   (row_of (Date_toISOString (env s1)) (Req.body req)
                      (uploaded s1))) (env s1)) as [w [e|[]]] eqn:Ha.
    + eexists _, done, _.
      split; [apply (handler_append_throws _ _ _ _ _ _ Hv Hf Hl Ha)|].
      simpl. split; [lia|]. split; [exact Hu|]. split.
      * rewrite Hg, Hlen, take_ge by lia. rewrite <- app_assoc. reflexivity.
      * right. left. split; [exact Hlen|]. eexists _, e. split; [|reflexivity].
        unfold thrown. now rewrite (try_append_throws _ _ _ _ _ _ Hv Hf Hl Ha).
    + eexists _, done, _.
      split; [apply (handler_append_ok _ _ _ _ _ Hv Hf Hl Ha)|].
      simpl. split; [lia|]. split; [exact Hu|]. split.
      * rewrite Hg, Hlen, take_ge by lia. rewrite <- app_assoc. reflexivity.
      * left. split; [exact Hlen|]. split.
        -- unfold thrown. now rewrite (try_append_ok _ _ _ _ _ Hv Hf Hl Ha).
        -- rewrite Hu. eauto.
  - eexists _, done, _.
    split; [apply (handler_loop_throws _ _ _ _ _ Hv Hf Hl)|].
    apply lookup_lt_Some in Hi as Hlt.
    simpl. split; [lia|]. split; [exact Hu|]. split.
    + rewrite Hg, Hlen, <- !app_assoc. reflexivity.
    + right. right. exists f, a. rewrite Hlen. split; [exact Hi|]. split.
      * unfold thrown. now rewrite (try_loop_throws _ _ _ _ _ Hv Hf Hl).
      * reflexivity.
Qed.

(** C4.  After validation the [uploaded] array holds exactly the entries
    of the iterations that completed, one per file and in the order of
    the files: the log starts with the events of [length done] completed
    iterations on the first [length done] files, what follows holds no
    completed iteration, and a 200 response carries one entry per
    received file, entry number [i] built from the metadata fetched for
    the object created for file number [i]. *)
Theorem C4_one_entry_per_processed_file req s :
  passes_validation req = true ->
  let files := default [] (Req.files req) in
  let s' := fst (upload_handler req s) in
  exists done rest,
    length (uploaded s') = length done /\
    length done <= length files /\
    uploaded s' = entries done /\
    log s' = log s ++ loop_events (take (length done) files) done ++ rest /\
    ((length done = length files /\
      exists p, rest = [ValuesAppend p (inr tt);
                        Respond 200 (Success (entries done))])
     \/ (length done = length files /\
         exists p e, rest = ValuesAppend p (inl e)
                            :: cleanup_events files ++ [server_error e])
     \/ (exists f a, files !! length done = Some f /\
         rest = abort_events f a
                ++ cleanup_events files ++ [server_error (abort_error a)])).
Proof.
  intros Hv files s'.
  destruct (upload_handler_run req s Hv)
    as (s2 & done & rest & Hh & Hle & Hu & Hg & Hrest).
  subst s'. rewrite Hh. simpl. exists done, rest.
  split; [rewrite Hu; unfold entries; now rewrite length_map|].
  repeat (split; [assumption|]).
  destruct Hrest as [(Hlen & _ & Hp)|[(Hlen & p & e & _ & Hp)
                                     |(f & a & Hi & _ & Hp)]].
  - left. auto.
  - right. left. eauto.
  - right. right. eauto.
Qed.

(** ** The appended row *)

Lemma filter_is_append_none evs :
  Forall (fun ev => is_append ev = false) evs -> List.filter is_append evs = [].
Proof.
  induction 1 as [|ev rest Hev _ IH]; simpl.
  - reflexivity.
  - now rewrite Hev.
Qed.

Lemma truthy_Some (v : option string) :
  truthy v = true -> exists x, v = Some x /\ x <> "".
Proof.
  destruct v as [[|c r]|]; simpl; try discriminate.
  intros _. eexists. split; [reflexivity|discriminate].
Qed.

Lemma toString_decimal n :
  option_map Nat.of_uint (NilZero.uint_of_string (toString n)) = Some n.
Proof.
  unfold toString. rewrite NilZero.usu.
  - simpl. f_equal. apply DecimalNat.Unsigned.of_to.
  - intros Hnil. pose proof (DecimalNat.Unsigned.of_to n) as Hn.
    rewrite Hnil in Hn. simpl in Hn. subst n. discriminate Hnil.
Qed.

(** The loop completed: the one append call and its argument. *)
Lemma append_after_loop req s files s1 :
  passes_validation req = true ->
  Req.files req = Some files ->
  upload_loop files (fresh s) = (s1, inr tt) ->
  exists done r evs,
    length done = length files /\
    uploaded s1 = entries done /\
    log s1 = log s ++ loop_events files done /\
    log (fst (upload_handler req s)) = log s ++ evs /\
    List.filter is_append evs =
      [ValuesAppend
         (append_params
            (row_of (Date_toISOString (env s1)) (Req.body req)
               (entries done))) r].
Proof.
  intros Hv Hf Hl.
  destruct (upload_loop_completed _ _ _ Hl) as (done & Hlen & _ & Hu & Hg).
  simpl in Hu, Hg.
  assert (Hno : List.filter is_append (loop_events files done) = []).
  { apply filter_is_append_none, loop_events_Forall; reflexivity. }
  destruct (sheets_values_append
              (append_params
                 (row_of (Date_toISOString (env s1)) (Req.body req)
                    (uploaded s1))) (env s1)) as [w [e|[]]] eqn:Ha.
  - exists done, (inl e). eexists. repeat (split; [eassumption|]).
    rewrite (handler_append_throws _ _ _ _ _ _ Hv Hf Hl Ha). simpl.
    rewrite Hg, <- app_assoc. split; [reflexivity|].
    rewrite List.filter_app, Hno. simpl. rewrite List.filter_app.
    rewrite (filter_is_append_none (cleanup_events files))
      by (apply cleanup_events_Forall; reflexivity).
    simpl. now rewrite Hu.
  - exists done, (inr tt). eexists. repeat (split; [eassumption|]).
    rewrite (handler_append_ok _ _ _ _ _ Hv Hf Hl Ha). simpl.
    rewrite Hg, <- app_assoc. split; [reflexivity|].
    rewrite List.filter_app, Hno. simpl. now rewrite Hu.
Qed.

Lemma valid_fields req :
  passes_validation req = true ->
  exists fn ln ph,
    Body.firstName (Req.body req) = Some fn /\ fn <> "" /\
    Body.lastName (Req.body req) = Some ln /\ ln <> "" /\
    Body.phone (Req.body req) = Some ph /\ ph <> "".
Proof.
  unfold passes_validation. intros Hv.
  apply andb_prop in Hv as [_ Hb].
  apply andb_prop in Hb as [Hb Hp]. apply andb_prop in Hb as [Hf Hl].
  destruct (truthy_Some _ Hf) as (fn & -> & ?).
  destruct (truthy_Some _ Hl) as (ln & -> & ?).
  destruct (truthy_Some _ Hp) as (ph & -> & ?).
  exists fn, ln, ph. auto 10.
Qed.

(** [join] is the concatenation with separator of the standard library. *)
Lemma join_concat sep (l : list string) : join sep l = String.concat sep l.
Proof.
  induction l as [|x rest IH]; simpl.
  - reflexivity.
  - destruct rest as [|y rest']; [reflexivity|]. now rewrite IH.
Qed.

(** C5.  Validation passed and the loop completed on every file: the
    handler issues exactly one append call, on the configured spreadsheet,
    with [valueInputOption] ["USER_ENTERED"] and one row of seven cells:
    the clock read after the loop, the three text fields, the number of
    files in decimal, the names of the entries of [uploaded] concatenated
    with separator [" | "] and their links concatenated with separator
    [" | "] (the concatenation of the standard library); the entries are
    those of the completed iterations, one per file. *)
Theorem C5_one_row_of_seven_cells req s files s1 :
  passes_validation req = true ->
  Req.files req = Some files ->
  upload_loop files (fresh s) = (s1, inr tt) ->
  exists done evs r row fn ln ph,
    length done = length files /\
    uploaded s1 = entries done /\
    log s1 = log s ++ loop_events files done /\
    log (fst (upload_handler req s)) = log s ++ evs /\
    List.filter is_append evs =
      [ValuesAppend (mkAppend SHEETS_ID "Sheet1!A:Z" "USER_ENTERED" [row]) r] /\
    row = [ Some (Date_toISOString (env s1)); Some fn; Some ln; Some ph;
            Some (toString (length files));
            Some (String.concat " | " (map Uploaded.name (entries done)));
            Some (String.concat " | " (map Uploaded.link (entries done))) ] /\
    length row = 7 /\
    Body.firstName (Req.body req) = Some fn /\
    Body.lastName (Req.body req) = Some ln /\
    Body.phone (Req.body req) = Some ph /\
    option_map Nat.of_uint (NilZero.uint_of_string (toString (length files)))
      = Some (length files).
Proof.
  intros Hv Hf Hl.
  destruct (append_after_loop _ _ _ _ Hv Hf Hl)
    as (done & r & evs & Hlen & Hu & Hg1 & Hg & Ha).
  destruct (valid_fields _ Hv) as (fn & ln & ph & Hfn & _ & Hln & _ & Hph & _).
  exists done, evs, r. eexists. exists fn, ln, ph.
  split; [exact Hlen|]. split; [exact Hu|]. split; [exact Hg1|].
  split; [exact Hg|]. split; [rewrite Ha; reflexivity|]. split.
  - unfold row_of. rewrite Hfn, Hln, Hph, !join_concat.
    replace (length (entries done)) with (length files)
      by (unfold entries; now rewrite length_map).
    reflexivity.
  - split; [reflexivity|].
    repeat (split; [assumption|]). apply toString_decimal.
Qed.

(** C6 (amended).  In the appended row the sixth cell is the names of the
    entries joined with [" | "] (space, vertical bar, space) and the
    seventh is their links joined with [" | "], the entries being those
    of the completed iterations, in the order of the files. *)
Theorem C6_names_and_links_joined req s files s1 :
  passes_validation req = true ->
  Req.files req = Some files ->
  upload_loop files (fresh s) = (s1, inr tt) ->
  exists done evs p r row,
    length done = length files /\
    log s1 = log s ++ loop_events files done /\
    log (fst (upload_handler req s)) = log s ++ evs /\
    List.filter is_append evs = [ValuesAppend p r] /\
    values p = [row] /\
    row !! 5 = Some (Some (join " | " (map Uploaded.name (entries done)))) /\
    row !! 6 = Some (Some (join " | " (map Uploaded.link (entries done)))).
Proof.
  intros Hv Hf Hl.
  destruct (append_after_loop _ _ _ _ Hv Hf Hl)
    as (done & r & evs & Hlen & _ & Hg1 & Hg & Ha).
  exists done, evs. eexists _, r, _.
  repeat (split; [eassumption|]).
  split; [reflexivity|]. split; reflexivity.
Qed.

(** ** Failure of the append *)

Lemma or_else_message (v : option string) d m :
  v = Some m -> m <> "" -> or_else v d = m.
Proof.
  intros -> Hm. destruct m as [|c r]; [congruence|reflexivity].
Qed.

Lemma or_else_nonempty (v : option string) d : d <> "" -> or_else v d <> "".
Proof.
  intros Hd. destruct v as [[|c r]|]; simpl; auto.
Qed.

(** C8.  Validation passed, the loop completed on every file and the
    append call is rejected with [e]: nothing is thrown, the response is
    500 with [e.message] (["Server xatosi"] when it is missing or empty),
    a create call was issued for every file, no delete call follows and
    the outside world is left as the rejected append left it. *)
Theorem C8_append_failure req s files s1 w e :
  passes_validation req = true ->
  Req.files req = Some files ->
  upload_loop files (fresh s) = (s1, inr tt) ->
  sheets_values_append
    (append_params
       (row_of (Date_toISOString (env s1)) (Req.body req) (uploaded s1)))
    (env s1) = (w, inl e) ->
  exists done evs,
    length done = length files /\
    evs = loop_events files done
          ++ ValuesAppend
               (append_params
                  (row_of (Date_toISOString (env s1)) (Req.body req)
                     (entries done))) (inl e)
          :: cleanup_events files
          ++ [Respond 500 (Failure (or_else (message e) msg_server))] /\
    upload_handler req s =
      (mkState w (tmp s ∖ list_to_set (paths files)) (entries done)
         (log s ++ evs), inr tt) /\
    (forall m, message e = Some m -> m <> "" ->
       or_else (message e) msg_server = m) /\
    created evs = map create_params files /\
    Forall (fun ev => is_delete ev = false) evs.
Proof.
  intros Hv Hf Hl Ha.
  destruct (upload_loop_completed _ _ _ Hl) as (done & Hlen & Ht & Hu & Hg).
  simpl in Ht, Hu, Hg.
  exists done. eexists. split; [exact Hlen|]. split; [reflexivity|].
  split; [|split; [|split]].
  - rewrite (handler_append_throws _ _ _ _ _ _ Hv Hf Hl Ha).
    f_equal. apply state_eq; simpl; auto.
    + rewrite Ht. set_solver.
    + rewrite Hg, Hu, <- app_assoc. reflexivity.
  - intros m Hm Hne. now apply or_else_message.
  - rewrite created_app, created_loop_events by exact Hlen. simpl.
    rewrite created_app, created_cleanup. simpl. now rewrite app_nil_r.
  - apply Forall_app. split.
    + apply loop_events_Forall; reflexivity.
    + constructor; [reflexivity|]. apply Forall_app. split.
      * apply cleanup_events_Forall; reflexivity.
      * repeat constructor.
Qed.

(** ** Failure of the permission call *)

Lemma perm_in_loop_events files : forall done p r,
  PermissionsCreate p r ∈ loop_events files done ->
  exists fileId meta,
    (fileId, r, meta) ∈ done /\ p = permission_params fileId.
Proof.
  unfold loop_events.
  induction files as [|f rest IH]; intros [|[[fileId pr] meta] done] p r Hin;
    simpl in Hin; try (now inversion Hin).
  apply elem_of_cons in Hin as [Hin|Hin]; [discriminate Hin|].
  apply elem_of_cons in Hin as [Hin|Hin].
  { injection Hin as -> ->. exists fileId, meta. split; [left|reflexivity]. }
  apply elem_of_cons in Hin as [Hin|Hin]; [discriminate Hin|].
  apply elem_of_cons in Hin as [Hin|Hin]; [discriminate Hin|].
  destruct (IH _ _ _ Hin) as (i & m & Hd & ->).
  exists i, m. split; [now right|reflexivity].
Qed.

Lemma entry_in_entries done (d : Done) :
  d ∈ done -> entry_of (snd d) ∈ entries done.
Proof.
  intros Hd. apply list_elem_of_In. unfold entries.
  apply (in_map (fun d => entry_of (snd d))). now apply list_elem_of_In.
Qed.

Lemma abort_events_fatal f a : Exists (fun ev => fatal ev = true) (abort_events f a).
Proof.
  destruct a; simpl.
  - now left.
  - right. right. now left.
Qed.

Lemma not_fatal_Exists evs :
  Forall (fun ev => fatal ev = false) evs ->
  Exists (fun ev => fatal ev = true) evs -> False.
Proof.
  intros Hall Hex. apply Exists_exists in Hex as (ev & Hin & Hev).
  rewrite Forall_forall in Hall. specialize (Hall _ Hin). congruence.
Qed.

(** C7.  First part: in an iteration where create and the metadata fetch
    succeed and the permission call is rejected, nothing is thrown, the
    entry is pushed, the temporary file is unlinked, and the link of the
    entry is [webViewLink] when that is a non-empty string and
    ["https://drive.google.com/uc?id=" + id] otherwise.  Second part: in
    a run after validation in which a permission call was rejected and no
    create, metadata or append call was, the response is 200 and its
    [uploaded] array holds the entry of the file whose permission call
    was rejected. *)
Theorem C7_permission_failure_is_not_fatal :
  (forall f s w1 fileId w2 e w3 meta,
     drive_files_create (create_params f) (env s) = (w1, inr fileId) ->
     drive_permissions_create (permission_params fileId) w1 = (w2, inl e) ->
     drive_files_get (get_params fileId) w2 = (w3, inr meta) ->
     upload_one f s =
       (mkState w3 (tmp s ∖ {[File.path f]}) (uploaded s ++ [entry_of meta])
          (log s ++ file_events f (fileId, inl e, meta)), inr tt)
     /\ (forall l, Meta.webViewLink meta = Some l -> l <> "" ->
           Uploaded.link (entry_of meta) = l)
     /\ (Meta.webViewLink meta = None \/ Meta.webViewLink meta = Some "" ->
           Uploaded.link (entry_of meta) =
           "https://drive.google.com/uc?id=" +:+ Uploaded.id (entry_of meta)))
  /\
  (forall req s evs p e,
     passes_validation req = true ->
     log (fst (upload_handler req s)) = log s ++ evs ->
     PermissionsCreate p (inl e) ∈ evs ->
     Forall (fun ev => fatal ev = false) evs ->
     exists done meta a,
       length done = length (default [] (Req.files req)) /\
       (perm_fileId p, inl e, meta) ∈ done /\
       entry_of meta ∈ entries done /\
       evs = loop_events (default [] (Req.files req)) done
             ++ [ValuesAppend a (inr tt);
                 Respond 200 (Success (entries done))]).
Proof.
  split.
  - intros f s w1 fileId w2 e w3 meta Hc Hp Hg. split; [|split].
    + now apply (upload_one_done _ _ _ _ _ _ _ _ Hc Hp Hg).
    + intros l Hl Hne. simpl. now apply or_else_message.
    + intros [Hl|Hl]; simpl; now rewrite Hl.
  - intros req s evs p e Hv Hlog Hin Hall.
    destruct (upload_handler_run req s Hv)
      as (s2 & done & rest & Hh & Hle & Hu & Hg & Hrest).
    rewrite Hh in Hlog. simpl in Hlog. rewrite Hg in Hlog.
    apply app_inv_head in Hlog. subst evs.
    apply Forall_app in Hall as [_ Hall].
    destruct Hrest as [(Hlen & _ & a & ->)|[(Hlen & a & e' & _ & ->)
                                           |(f & a & Hi & _ & ->)]].
    + rewrite Hlen, take_ge in Hin by lia.
      apply elem_of_app in Hin as [Hin|Hin].
      * destruct (perm_in_loop_events _ _ _ _ Hin) as (i & m & Hd & ->).
        exists done, m, a. rewrite Hlen, take_ge by lia.
        repeat split; auto.
        apply (entry_in_entries _ _ Hd).
      * apply elem_of_cons in Hin as [Hin|Hin]; [discriminate Hin|].
        apply elem_of_cons in Hin as [Hin|Hin]; [discriminate Hin|].
        inversion Hin.
    + exfalso. inversion Hall as [|? ? Hev _]. discriminate Hev.
    + exfalso. apply Forall_app in Hall as [Hall _].
      exact (not_fatal_Exists _ Hall (abort_events_fatal f a)).
Qed.

(** ** One response, nothing thrown *)

Lemma validation_message_nonempty v : validation_message v <> "".
Proof.
  destruct v; discriminate.
Qed.

Lemma loop_events_no_respond files done :
  Forall (fun ev => is_respond ev = false) (loop_events files done).
Proof.
  apply loop_events_Forall; reflexivity.
Qed.

Lemma abort_events_no_respond f a :
  Forall (fun ev => is_respond ev = false) (abort_events f a).
Proof.
  destruct a; simpl; repeat constructor.
Qed.

Lemma or_else_fallback (v : option string) d :
  v = None \/ v = Some "" -> or_else v d = d.
Proof.
  intros [->| ->]; reflexivity.
Qed.

(** C9.  On every request and in every state the handler throws nothing
    and writes exactly one response, after all its other events.  A
    response with [success:true] has status 200; a response with
    [success:false] carries a non-empty [error]: with status 400 the
    message of the first failed precondition; with status 500 the
    message of the error thrown in the [try] block when that message is a
    non-empty string, and ["Server xatosi"] when it is missing or
    empty. *)
Theorem C9_one_structured_response req s :
  exists s' evs status body,
    upload_handler req s = (s', inr tt) /\
    log s' = log s ++ evs ++ [Respond status body] /\
    Forall (fun ev => is_respond ev = false) evs /\
    (success body = true -> status = 200) /\
    (success body = false ->
       exists msg,
         body = Failure msg /\ msg <> "" /\
         ((status = 400 /\
           exists v, first_failed_check req = Some v /\
                     msg = validation_message v)
          \/ (status = 500 /\
              exists err,
                thrown req s = Some err /\
                msg = or_else (message err) "Server xatosi" /\
                (forall m, message err = Some m -> m <> "" -> msg = m) /\
                (message err = None \/ message err = Some "" ->
                   msg = "Server xatosi")))).
Proof.
  destruct (first_failed_check req) as [v|] eqn:Hc.
  - eexists _, _, _, _. split; [apply (upload_handler_invalid _ _ _ Hc)|].
    simpl. split; [reflexivity|]. split; [|split].
    + apply cleanup_events_Forall; reflexivity.
    + discriminate.
    + intros _. exists (validation_message v).
      split; [reflexivity|]. split; [apply validation_message_nonempty|].
      left. eauto.
  - apply first_failed_check_None in Hc.
    destruct (upload_handler_run req s Hc)
      as (s2 & done & rest & Hh & Hle & Hu & Hg & Hrest).
    destruct Hrest as [(Hlen & _ & a & ->)|[(Hlen & a & e & Ht & ->)
                                           |(f & a & Hi & Ht & ->)]].
    + exists s2, (loop_events (take (length done) (default [] (Req.files req)))
                    done ++ [ValuesAppend a (inr tt)]), 200,
        (Success (entries done)).
      split; [exact Hh|]. split; [now rewrite Hg, <- !app_assoc|].
      split; [|split].
      * apply Forall_app. split; [apply loop_events_no_respond|].
        repeat constructor.
      * reflexivity.
      * discriminate.
    + exists s2, (loop_events (take (length done) (default [] (Req.files req)))
                    done ++ ValuesAppend a (inl e)
                    :: cleanup_events (default [] (Req.files req))), 500,
        (Failure (or_else (message e) msg_server)).
      split; [exact Hh|].
      split; [rewrite Hg, <- !app_assoc; simpl; reflexivity|].
      split; [|split].
      * apply Forall_app. split; [apply loop_events_no_respond|].
        constructor; [reflexivity|]. apply cleanup_events_Forall; reflexivity.
      * discriminate.
      * intros _. eexists. split; [reflexivity|].
        split; [apply or_else_nonempty; discriminate|]. right.
        split; [reflexivity|]. exists e. split; [exact Ht|].
        split; [reflexivity|]. split.
        -- intros m Hm Hne. now apply or_else_message.
        -- apply or_else_fallback.
    + exists s2, (loop_events (take (length done) (default [] (Req.files req)))
                    done ++ abort_events f a
                    ++ cleanup_events (default [] (Req.files req))), 500,
        (Failure (or_else (message (abort_error a)) msg_server)).
      split; [exact Hh|].
      split; [rewrite Hg, <- !app_assoc; reflexivity|].
      split; [|split].
      * apply Forall_app. split; [apply loop_events_no_respond|].
        apply Forall_app. split; [apply abort_events_no_respond|].
        apply cleanup_events_Forall; reflexivity.
      * discriminate.
      * intros _. eexists. split; [reflexivity|].
        split; [apply or_else_nonempty; discriminate|]. right.
        split; [reflexivity|]. exists (abort_error a). split; [exact Ht|].
        split; [reflexivity|]. split.
        -- intros m Hm Hne. now apply or_else_message.
        -- apply or_else_fallback.
Qed.

(** ** Release of the temporary files *)

Lemma upload_handler_tmp req s :
  passes_validation req = true ->
  tmp (fst (upload_handler req s)) =
  tmp s ∖ list_to_set (paths (default [] (Req.files req))).
Proof.
  intros Hv. pose proof (valid_has_files _ Hv) as Hf.
  set (files := default [] (Req.files req)) in *.
  destruct (upload_loop files (fresh s)) as [s1 r] eqn:Hl.
  destruct (upload_loop_run files (fresh s))
    as [(done & _ & Hr & Ht & _)|(i & f & done & a & _ & _ & Hr & Ht & _)];
    rewrite Hl in *; simpl in Hr, Ht; subst r.
  - destruct (sheets_values_append
                (append_params
                   (row_of (Date_toISOString (env s1)) (Req.body req)
                      (uploaded s1))) (env s1)) as [w [e|[]]] eqn:Ha.
    + rewrite (handler_append_throws _ _ _ _ _ _ Hv Hf Hl Ha). simpl.
      rewrite Ht. set_solver.
    + rewrite (handler_append_ok _ _ _ _ _ Hv Hf Hl Ha). simpl. exact Ht.
  - rewrite (handler_loop_throws _ _ _ _ _ Hv Hf Hl). simpl.
    rewrite Ht. pose proof (paths_take_subseteq i files). set_solver.
Qed.

(** X1.  Unless the request fails the second or the third precondition,
    no temporary file of the request is left when the handler is done:
    not after the 400 for missing fields, not after a 200, not after a
    500. *)
Theorem X1_temp_files_released req s :
  first_failed_check req <> Some TooManyFiles ->
  first_failed_check req <> Some PayloadTooLarge ->
  tmp (fst (upload_handler req s)) =
    tmp s ∖ list_to_set (paths (default [] (Req.files req)))
  /\ (forall f, f ∈ default [] (Req.files req) ->
        File.path f ∉ tmp (fst (upload_handler req s))).
Proof.
  intros Hm Hl.
  assert (Ht : tmp (fst (upload_handler req s)) =
               tmp s ∖ list_to_set (paths (default [] (Req.files req)))).
  { destruct (first_failed_check req) as [v|] eqn:Hc.
    - rewrite (upload_handler_invalid _ _ _ Hc). simpl.
      destruct v; try congruence; simpl; [|reflexivity].
      unfold first_failed_check, checks_in_order in Hc. cbn [find] in Hc.
      destruct (holds NoFiles req) eqn:Hn, (holds TooManyFiles req),
        (holds PayloadTooLarge req), (holds MissingFields req);
        cbn [negb] in Hc; try discriminate Hc.
      all: unfold holds in Hn.
      all: destruct (default [] (Req.files req));
             [reflexivity|simpl in Hn; discriminate Hn].
    - apply upload_handler_tmp. now apply first_failed_check_None. }
  split; [exact Ht|].
  intros f Hin Hn. rewrite Ht in Hn.
  apply elem_of_difference in Hn as [_ Hn]. apply Hn.
  now apply path_in_paths.
Qed.

(** ** Failure of the metadata fetch *)

Lemma upload_loop_get_fails files i f s0 s1 w1 fileId w2 pr w3 e :
  files !! i = Some f ->
  upload_loop (take i files) s0 = (s1, inr tt) ->
  drive_files_create (create_params f) (env s1) = (w1, inr fileId) ->
  drive_permissions_create (permission_params fileId) w1 = (w2, pr) ->
  drive_files_get (get_params fileId) w2 = (w3, inl e) ->
  upload_loop files s0 =
  (mkState w3 (tmp s1) (uploaded s1)
     (log s1 ++ abort_events f (GetFailed fileId pr e)), inl e).
Proof.
  intros Hi Hl Hc Hp Hg.
  rewrite <- (take_drop_middle _ _ _ Hi) at 1.
  rewrite upload_loop_app. unfold bind at 1. rewrite Hl.
  simpl upload_loop. unfold bind.
  now rewrite (upload_one_get_fails _ _ _ _ _ _ _ _ Hc Hp Hg).
Qed.

Lemma created_ids_app evs1 evs2 :
  created_ids (evs1 ++ evs2) = created_ids evs1 ++ created_ids evs2.
Proof.
  induction evs1 as [|ev rest IH]; simpl.
  - reflexivity.
  - destruct ev as [p [e|i]| | | | | |]; simpl; now rewrite IH.
Qed.

Lemma created_ids_cleanup files : created_ids (cleanup_events files) = [].
Proof.
  unfold cleanup_events.
  induction (paths files) as [|p ps IH]; simpl; auto.
Qed.

Lemma created_ids_loop_events files : forall done,
  length done = length files ->
  created_ids (loop_events files done) = map (fun d => fst (fst d)) done.
Proof.
  unfold loop_events.
  induction files as [|f rest IH]; intros [|[[fileId pr] meta] done] Hlen;
    simpl in *; try discriminate; auto.
  f_equal. apply IH. lia.
Qed.

(** X2.  Validation passed, the first [i] files went through the loop,
    the create call for file number [i] succeeds and its metadata fetch
    is rejected with [e].  The handler answers 500 with the message of
    [e]; the object it has just created stays in the folder without an
    entry: [i+1] identifiers were handed out, [i] entries exist, and
    neither an append nor a delete call follows. *)
Theorem X2_metadata_failure req s files i f s1 w1 fileId w2 pr w3 e :
  passes_validation req = true ->
  Req.files req = Some files ->
  files !! i = Some f ->
  upload_loop (take i files) (fresh s) = (s1, inr tt) ->
  drive_files_create (create_params f) (env s1) = (w1, inr fileId) ->
  drive_permissions_create (permission_params fileId) w1 = (w2, pr) ->
  drive_files_get (get_params fileId) w2 = (w3, inl e) ->
  exists done evs,
    length done = i /\
    evs = loop_events (take i files) done
          ++ [ FilesCreate (create_params f) (inr fileId);
               PermissionsCreate (permission_params fileId) pr;
               FilesGet (get_params fileId) (inl e) ]
          ++ cleanup_events files
          ++ [Respond 500 (Failure (or_else (message e) msg_server))] /\
    upload_handler req s =
      (mkState w3 (tmp s ∖ list_to_set (paths files)) (entries done)
         (log s ++ evs), inr tt) /\
    created_ids evs = map (fun d => fst (fst d)) done ++ [fileId] /\
    length (entries done) = i /\
    Forall (fun ev => is_append ev = false) evs /\
    Forall (fun ev => is_delete ev = false) evs.
Proof.
  intros Hv Hf Hi Hl Hc Hp Hg.
  destruct (upload_loop_completed _ _ _ Hl) as (done & Hlen & Ht & Hu & Hlog).
  simpl in Ht, Hu, Hlog.
  assert (Hlt : i < length files) by (eapply lookup_lt_Some; eauto).
  assert (Hti : length (take i files) = i) by (rewrite length_take; lia).
  exists done. eexists. split; [lia|]. split; [reflexivity|].
  split; [|split; [|split; [|split]]].
  - rewrite (handler_loop_throws _ _ _ _ _ Hv Hf
               (upload_loop_get_fails _ _ _ _ _ _ _ _ _ _ _ Hi Hl Hc Hp Hg)).
    f_equal. apply state_eq; simpl; auto.
    + rewrite Ht. pose proof (paths_take_subseteq i files). set_solver.
    + rewrite Hlog. rewrite <- !app_assoc. reflexivity.
  - rewrite created_ids_app, created_ids_loop_events by lia. simpl.
    rewrite created_ids_app, created_ids_cleanup. reflexivity.
  - unfold entries. rewrite length_map. exact (eq_trans Hlen Hti).
  - apply Forall_app. split; [apply loop_events_Forall; reflexivity|].
    repeat (constructor; [reflexivity|]).
    apply Forall_app. split; [apply cleanup_events_Forall; reflexivity|].
    repeat constructor.
  - apply Forall_app. split; [apply loop_events_Forall; reflexivity|].
    repeat (constructor; [reflexivity|]).
    apply Forall_app. split; [apply cleanup_events_Forall; reflexivity|].
    repeat constructor.
Qed.

(** ** The temporary files of the files still to come *)

(** X4.  When the paths of the received files are pairwise different and
    all present, then after the loop has completed on the first [i] files
    the temporary file of every later file is still there, and those of
    the first [i] files are gone. *)
Theorem X4_pending_temp_files_kept files i s0 s1 :
  NoDup (paths files) ->
  (forall f, f ∈ files -> File.path f ∈ tmp s0) ->
  upload_loop (take i files) s0 = (s1, inr tt) ->
  (forall f, f ∈ drop i files -> File.path f ∈ tmp s1) /\
  (forall f, f ∈ take i files -> File.path f ∉ tmp s1).
Proof.
  intros Hnd Hall Hl.
  destruct (upload_loop_completed _ _ _ Hl) as (done & _ & Ht & _).
  rewrite <- (take_drop i files) in Hnd. unfold paths in Hnd.
  rewrite map_app in Hnd. apply NoDup_app in Hnd as (_ & Hdis & _).
  split.
  - intros f Hin. rewrite Ht. apply elem_of_difference. split.
    + apply Hall. rewrite <- (take_drop i files). apply elem_of_app. now right.
    + intros Hp. apply elem_of_list_to_set in Hp.
      apply (Hdis _ Hp). apply list_elem_of_In. apply in_map.
      now apply list_elem_of_In.
  - intros f Hin Hp. rewrite Ht in Hp.
    apply elem_of_difference in Hp as [_ Hp]. apply Hp.
    now apply path_in_paths.
Qed.

(** ** What the handler touches *)


Lemma confined_mono `{Services W} files (ids ids' : list string) ev :
  (forall x, x ∈ ids -> x ∈ ids') ->
  confined files ids ev -> confined files ids' ev.
Proof.
  intros Hsub. destruct ev; simpl; auto.
  - intros (Hi & Hr & Ht). auto.
Qed.




(** ** Which requests get which status *)

Lemma acceptable_iff req : acceptable req <-> passes_validation req = true.
Proof.
  unfold acceptable, passes_validation.
  set (files := default [] (Req.files req)).
  rewrite !andb_true_iff, !negb_true_iff.
  rewrite Nat.eqb_neq, Nat.ltb_ge, Z.ltb_ge. unfold MAX_TOTAL.
  split.
  - intros ([H1 H2] & Ht & fn & ln & ph & -> & Hfn & -> & Hln & -> & Hph).
    repeat split; try lia.
    + destruct fn; [congruence|reflexivity].
    + destruct ln; [congruence|reflexivity].
    + destruct ph; [congruence|reflexivity].
  - intros (((H1 & H2) & Ht) & (Hf & Hl) & Hp).
    destruct (truthy_Some _ Hf) as (fn & Hfn & ?).
    destruct (truthy_Some _ Hl) as (ln & Hln & ?).
    destruct (truthy_Some _ Hp) as (ph & Hph & ?).
    repeat split; try lia. exists fn, ln, ph. auto 10.
Qed.

Lemma last_status_snoc evs st b : last_status (evs ++ [Respond st b]) = Some st.
Proof.
  unfold last_status. now rewrite last_snoc.
Qed.

(** The status of the response, case by case. *)
Lemma handler_status req s :
  (passes_validation req = false /\
   last_status (log (fst (upload_handler req s))) = Some 400)
  \/ (passes_validation req = true /\ thrown req s = None /\
      last_status (log (fst (upload_handler req s))) = Some 200)
  \/ (passes_validation req = true /\ (exists e, thrown req s = Some e) /\
      last_status (log (fst (upload_handler req s))) = Some 500).
Proof.
  destruct (first_failed_check req) as [v|] eqn:Hc.
  - left. split.
    + destruct (passes_validation req) eqn:Hv; [|reflexivity].
      apply first_failed_check_None in Hv. congruence.
    + rewrite (upload_handler_invalid _ _ _ Hc). simpl.
      rewrite app_assoc. apply last_status_snoc.
  - apply first_failed_check_None in Hc. right.
    destruct (upload_handler_run req s Hc)
      as (s2 & done & rest & Hh & _ & _ & Hg & Hrest).
    rewrite Hh. simpl. rewrite Hg.
    destruct Hrest as [(_ & Ht & p & ->)|[(_ & p & e & Ht & ->)
                                         |(f & a & _ & Ht & ->)]].
    + left. repeat split; auto.
      unfold last_status. rewrite !last_app. reflexivity.
    + right. repeat split; eauto.
      unfold last_status. rewrite app_comm_cons, !last_app. reflexivity.
    + right. repeat split; eauto.
      unfold last_status. rewrite !last_app. reflexivity.
Qed.

(** X6.  The status of the response is 400 exactly when the request
    carries no file, more than 10 files, more than 104857600 bytes in
    total, or lacks a non-empty first name, last name or phone; it is 200
    exactly when none of this holds and the [try] block throws nothing,
    and 500 exactly when none of this holds and it throws. *)
Theorem X6_status_table req s :
  (last_status (log (fst (upload_handler req s))) = Some 400
     <-> ~ acceptable req) /\
  (last_status (log (fst (upload_handler req s))) = Some 200
     <-> acceptable req /\ thrown req s = None) /\
  (last_status (log (fst (upload_handler req s))) = Some 500
     <-> acceptable req /\ thrown req s <> None).
Proof.
  rewrite acceptable_iff.
  destruct (handler_status req s)
    as [(Hv & Hst)|[(Hv & Ht & Hst)|(Hv & (e & Ht) & Hst)]];
    rewrite Hst, Hv; repeat split; try intros [? ?]; try congruence;
    try discriminate; try (intros; congruence).
Qed.

(** ** The handler before and after the client is ready *)

Lemma upload_one_on_ready f s :
  upload_one_on ready_globals f s = upload_one f s.
Proof.
  reflexivity.
Qed.

Lemma upload_loop_on_ready files : forall s,
  upload_loop_on ready_globals files s = upload_loop files s.
Proof.
  induction files as [|f rest IH]; intros s; simpl.
  - reflexivity.
  - unfold bind. rewrite upload_one_on_ready.
    destruct (upload_one f s) as [s1 [e|[]]]; [reflexivity|apply IH].
Qed.

(** With both globals assigned the reads of [drive] and [sheets] succeed
    and the two embeddings of the handler agree. *)
Lemma upload_handler_on_ready req s :
  upload_handler_on ready_globals req s = upload_handler req s.
Proof.
  unfold upload_handler_on, upload_handler, try_catch.
  replace (upload_try_on ready_globals req s) with (upload_try req s);
    [reflexivity|].
  unfold upload_try_on, upload_try.
  destruct (length (default [] (Req.files req)) =? 0)%nat; [reflexivity|].
  destruct (10 <? length (default [] (Req.files req)))%nat; [reflexivity|].
  destruct (MAX_TOTAL <? totalSize (default [] (Req.files req)))%Z;
    [reflexivity|].
  destruct (negb (truthy (Body.firstName (Req.body req)))
            || negb (truthy (Body.lastName (Req.body req)))
            || negb (truthy (Body.phone (Req.body req)))); [reflexivity|].
  unfold bind at 1 6. simpl.
  unfold bind at 1 5. rewrite upload_loop_on_ready.
  destruct (upload_loop (default [] (Req.files req)) _) as [s1 [e|[]]];
    reflexivity.
Qed.

Lemma upload_try_on_invalid (g : Globals W) req s :
  passes_validation req = false ->
  upload_try_on g req s = upload_try req s.
Proof.
  unfold passes_validation, upload_try_on, upload_try.
  destruct (length (default [] (Req.files req)) =? 0)%nat; [reflexivity|].
  destruct (10 <? length (default [] (Req.files req)))%nat; [reflexivity|].
  destruct (MAX_TOTAL <? totalSize (default [] (Req.files req)))%Z;
    [reflexivity|].
  destruct (truthy (Body.firstName (Req.body req))),
           (truthy (Body.lastName (Req.body req))),
           (truthy (Body.phone (Req.body req)));
    simpl; (reflexivity || discriminate).
Qed.

Lemma upload_try_on_unready req s files :
  passes_validation req = true ->
  Req.files req = Some files ->
  upload_try_on initial_globals req s =
  (fresh s, inl (TypeError_undefined "files")).
Proof.
  intros Hv Hf. pose proof Hv as Hv'.
  unfold passes_validation in Hv. unfold upload_try_on.
  apply andb_prop in Hv as [Hv Hb]. apply andb_prop in Hv as [Hv Hs].
  apply andb_prop in Hv as [Hn Hm].
  apply negb_true_iff in Hn, Hm, Hs. rewrite Hn, Hm, Hs.
  apply andb_prop in Hb as [Hb Hp]. apply andb_prop in Hb as [Hb Hl].
  rewrite Hb, Hl, Hp. simpl.
  rewrite Hf in *. simpl in *.
  destruct files as [|f rest]; [discriminate Hn|].
  reflexivity.
Qed.

(** X11.  A request that arrives while [drive] is still [undefined]:
    the validation answers as always; a request that passes it makes no
    remote call at all, has every temporary file unlinked by the [catch]
    block and is answered 500 with the message of the [TypeError]. *)
Theorem X11_request_before_client_ready req s :
  upload_handler_on initial_globals req s =
  match first_failed_check req with
  | Some v =>
      (mkState (env s)
         (tmp s ∖ list_to_set (paths (unlinked_on v req))) (uploaded s)
         (log s ++ cleanup_events (unlinked_on v req)
                ++ [Respond 400 (Failure (validation_message v))]), inr tt)
  | None =>
      (mkState (env s)
         (tmp s ∖ list_to_set (paths (default [] (Req.files req)))) []
         (log s ++ cleanup_events (default [] (Req.files req))
                ++ [Respond 500
                      (Failure
                         (or_else (message (TypeError_undefined "files"))
                            msg_server))]), inr tt)
  end.
Proof.
  destruct (first_failed_check req) as [v|] eqn:Hc.
  - rewrite <- (upload_handler_invalid _ s _ Hc).
    unfold upload_handler_on, upload_handler, try_catch.
    rewrite upload_try_on_invalid; [reflexivity|].
    destruct (passes_validation req) eqn:Hv; [|reflexivity].
    apply first_failed_check_None in Hv. congruence.
  - apply first_failed_check_None in Hc.
    pose proof (valid_has_files _ Hc) as Hf.
    unfold upload_handler_on, try_catch.
    rewrite (upload_try_on_unready _ _ _ Hc Hf).
    now rewrite (upload_catch_run _ _ _ _ Hf).
Qed.

End Properties.

(** * Properties of the start-up *)

Section StartUp.

Context `{Host}.

Implicit Types (env : gmap string string).

Lemma if_truthy_Some (v : option string) text :
  if_truthy v = Some text <-> v = Some text /\ text <> "".
Proof.
  unfold if_truthy. destruct v as [[|c r]|]; simpl; split;
    try discriminate; try (intros [? ?]; congruence).
  intros [= <-]. split; [reflexivity|discriminate].
Qed.

Lemma if_truthy_None (v : option string) :
  if_truthy v = None <-> truthy v = false.
Proof.
  unfold if_truthy. destruct (truthy v) eqn:E; split; try reflexivity;
    try discriminate.
  destruct v; [discriminate|discriminate E].
Qed.

(** X7.  The script reaches [app.listen] exactly when both identifiers
    are set and non-empty and either [GOOGLE_SERVICE_ACCOUNT] is set,
    non-empty and parses (its value is then the credential, whether or
    not [credentials.json] exists), or it is unset or empty and
    [credentials.json] exists beside the script.  Both ways ask for the
    same two scopes. *)
Theorem X7_boot_listens env port folder sheet auth :
  boot env = Listen port folder sheet auth <->
  port = getPORT env /\
  folder = env !! "DRIVE_FOLDER_ID" /\ sheet = env !! "SHEETS_ID" /\
  truthy folder = true /\ truthy sheet = true /\
  ((exists text c,
       env !! "GOOGLE_SERVICE_ACCOUNT" = Some text /\ text <> "" /\
       JSON_parse text = inr c /\ auth = WithCredentials c SCOPES)
   \/ (truthy (env !! "GOOGLE_SERVICE_ACCOUNT") = false /\
       existsSync (path_join dirname "credentials.json") = true /\
       auth = WithKeyFile (path_join dirname "credentials.json") SCOPES)).
Proof.
  unfold boot.
  destruct (truthy (env !! "DRIVE_FOLDER_ID")) eqn:Hf;
    destruct (truthy (env !! "SHEETS_ID")) eqn:Hs; simpl;
    try (split; [discriminate|table_back]).
  destruct (if_truthy (env !! "GOOGLE_SERVICE_ACCOUNT")) as [text|] eqn:Hg.
  - apply if_truthy_Some in Hg as [Hg Hne].
    assert (Ht : truthy (env !! "GOOGLE_SERVICE_ACCOUNT") = true)
      by (rewrite Hg; destruct text; [congruence|reflexivity]).
    destruct (JSON_parse text) as [e|c] eqn:Hp; split.
    all: try discriminate.
    all: try (table_back; fail).
    intros Heq. simplify_eq. repeat split; auto. left. exists text, c. auto.
  - apply if_truthy_None in Hg.
    assert (Hn : forall t, env !! "GOOGLE_SERVICE_ACCOUNT" = Some t -> t = "").
    { intros t Ht. rewrite Ht in Hg. destruct t; [reflexivity|discriminate Hg]. }
    destruct (existsSync (path_join dirname "credentials.json")) eqn:He;
      simpl; split.
    all: try discriminate.
    all: try (table_back; exfalso; eauto; fail).
    intros Heq. simplify_eq. repeat split; auto.
Qed.

(** The exits of the first turn. *)
Lemma boot_exit_table env code msg :
  boot env = Exit code msg <->
  code = 1%Z /\
  ((msg = msg_config /\
    (truthy (env !! "DRIVE_FOLDER_ID") = false \/
     truthy (env !! "SHEETS_ID") = false))
   \/ (msg = msg_bad_json /\
       truthy (env !! "DRIVE_FOLDER_ID") = true /\
       truthy (env !! "SHEETS_ID") = true /\
       exists text e,
         env !! "GOOGLE_SERVICE_ACCOUNT" = Some text /\ text <> "" /\
         JSON_parse text = inl e)
   \/ (msg = msg_no_credentials /\
       truthy (env !! "DRIVE_FOLDER_ID") = true /\
       truthy (env !! "SHEETS_ID") = true /\
       truthy (env !! "GOOGLE_SERVICE_ACCOUNT") = false /\
       existsSync (path_join dirname "credentials.json") = false)).
Proof.
  unfold boot.
  destruct (truthy (env !! "DRIVE_FOLDER_ID")) eqn:Hf;
    destruct (truthy (env !! "SHEETS_ID")) eqn:Hs; simpl;
    try (split;
         [intros Heq; simplify_eq; split; [reflexivity|left; auto]
         |table_back]).
  destruct (if_truthy (env !! "GOOGLE_SERVICE_ACCOUNT")) as [text|] eqn:Hg.
  - apply if_truthy_Some in Hg as [Hg Hne].
    assert (Ht : truthy (env !! "GOOGLE_SERVICE_ACCOUNT") = true)
      by (rewrite Hg; destruct text; [congruence|reflexivity]).
    destruct (JSON_parse text) as [e|c] eqn:Hp; split.
    all: try discriminate.
    all: try (table_back; fail).
    intros Heq. simplify_eq. split; [reflexivity|]. right. left.
    repeat split; auto. exists text, e. auto.
  - apply if_truthy_None in Hg.
    assert (Hn : forall t, env !! "GOOGLE_SERVICE_ACCOUNT" = Some t -> t = "").
    { intros t Ht. rewrite Ht in Hg. destruct t; [reflexivity|discriminate Hg]. }
    destruct (existsSync (path_join dirname "credentials.json")) eqn:He;
      simpl; split.
    all: try discriminate.
    all: try (table_back; exfalso; eauto; fail).
    intros Heq. simplify_eq. split; [reflexivity|]. right. right. auto.
Qed.

(** X8.  Every [process.exit] of the script is with code 1, after one
    of four messages: the configuration message when an identifier is
    missing or empty, whatever the credentials are; the JSON message when
    the identifiers are there and [GOOGLE_SERVICE_ACCOUNT] is non-empty
    and does not parse, [credentials.json] being there or not; the
    credentials message when it is unset or empty and the file is
    missing; the auth message when the first turn reached [app.listen]
    and the chain of [getClient] is rejected. *)
Theorem X8_script_exits env (p : Promise) code msg :
  script env p = Exited code msg <->
  code = 1%Z /\
  ((msg = msg_config /\
    (truthy (env !! "DRIVE_FOLDER_ID") = false \/
     truthy (env !! "SHEETS_ID") = false))
   \/ (msg = msg_bad_json /\
       truthy (env !! "DRIVE_FOLDER_ID") = true /\
       truthy (env !! "SHEETS_ID") = true /\
       exists text e,
         env !! "GOOGLE_SERVICE_ACCOUNT" = Some text /\ text <> "" /\
         JSON_parse text = inl e)
   \/ (msg = msg_no_credentials /\
       truthy (env !! "DRIVE_FOLDER_ID") = true /\
       truthy (env !! "SHEETS_ID") = true /\
       truthy (env !! "GOOGLE_SERVICE_ACCOUNT") = false /\
       existsSync (path_join dirname "credentials.json") = false)
   \/ (msg = msg_auth /\
       (exists err, p = Rejected err) /\
       exists port folder sheet auth,
         boot env = Listen port folder sheet auth)).
Proof.
  pose proof (boot_exit_table env) as Htab.
  unfold script. destruct (boot env) as [c m|port folder sheet auth] eqn:Hb.
  - split.
    + intros Heq. injection Heq as -> ->.
      destruct (proj1 (Htab code msg) eq_refl) as (-> & [?|[?|?]]); auto 10.
    + intros (-> & [Hx|[Hx|[Hx|(_ & _ & ? & ? & ? & ? & Hx)]]]);
        try discriminate Hx.
      all: assert (Hy : Exit c m = Exit 1 msg) by (apply Htab; auto 10).
      all: now injection Hy as -> ->.
  - assert (Hno : forall k t, Exit k t <> Listen port folder sheet auth)
      by (intros; discriminate).
    destruct p as [| |err]; split; try discriminate.
    + intros (-> & [Hx|[Hx|[Hx|(_ & (? & Hx) & _)]]]); try discriminate Hx.
      all: exfalso; apply (Hno 1%Z msg); symmetry; apply Htab; auto 10.
    + intros (-> & [Hx|[Hx|[Hx|(_ & (? & Hx) & _)]]]); try discriminate Hx.
      all: exfalso; apply (Hno 1%Z msg); symmetry; apply Htab; auto 10.
    + intros Heq. injection Heq as <- <-. split; [reflexivity|].
      right. right. right. eauto 10.
    + intros (-> & [Hx|[Hx|[Hx|(-> & _)]]]); try reflexivity.
      all: exfalso; apply (Hno 1%Z msg); symmetry; apply Htab; auto 10.
Qed.

(** X9.  The port is the value of [PORT] when that is set and non-empty,
    else the value of [PORT_NUMBER] when that is set and non-empty, else
    the number 10000: an empty [PORT] does not hide [PORT_NUMBER], and a
    port taken from the environment is passed on as text. *)
Theorem X9_port_precedence env :
  (forall p, getPORT env = PortText p <->
     p <> "" /\
     (env !! "PORT" = Some p \/
      (truthy (env !! "PORT") = false /\ env !! "PORT_NUMBER" = Some p))) /\
  (forall n, getPORT env = PortNumber n <->
     n = 10000%Z /\ truthy (env !! "PORT") = false /\
     truthy (env !! "PORT_NUMBER") = false).
Proof.
  unfold getPORT.
  destruct (if_truthy (env !! "PORT")) as [p0|] eqn:Hp.
  - apply if_truthy_Some in Hp as [Hp Hne].
    assert (Ht : truthy (env !! "PORT") = true)
      by (rewrite Hp; destruct p0; [congruence|reflexivity]).
    split; intros x; split.
    all: try discriminate.
    all: try (table_back; fail).
    intros Heq. simplify_eq. auto.
  - apply if_truthy_None in Hp.
    assert (Hn : forall t, env !! "PORT" = Some t -> t = "").
    { intros t Ht. rewrite Ht in Hp. destruct t; [reflexivity|discriminate Hp]. }
    destruct (if_truthy (env !! "PORT_NUMBER")) as [q|] eqn:Hq.
    + apply if_truthy_Some in Hq as [Hq Hne].
      assert (Ht : truthy (env !! "PORT_NUMBER") = true)
        by (rewrite Hq; destruct q; [congruence|reflexivity]).
      split; intros x; split.
      all: try discriminate.
      all: try (table_back; exfalso; eauto; fail).
      intros Heq. simplify_eq. auto.
    + apply if_truthy_None in Hq.
      assert (Hm : forall t, env !! "PORT_NUMBER" = Some t -> t = "").
      { intros t Ht. rewrite Ht in Hq.
        destruct t; [reflexivity|discriminate Hq]. }
      split; intros x; split.
      all: try discriminate.
      all: try (table_back; exfalso; eauto; fail).
      intros Heq. simplify_eq. auto.
Qed.

End StartUp.

(** * The theorems on the simulated cloud *)

(** C3 at a request without a last name. *)
Lemma C3_witness :
  first_failed_check Sim.anonymous = Some MissingFields /\
  upload_handler Sim.anonymous Sim.healthy =
    (mkState (env Sim.healthy)
       (tmp Sim.healthy ∖ list_to_set (paths Sim.three)) []
       (cleanup_events Sim.three ++ [Respond 400 (Failure msg_missing)]),
     inr tt).
Proof.
  split; [reflexivity|].
  exact (proj1 (C3_validation_in_order Sim.anonymous Sim.healthy
                  MissingFields eq_refl)).
Defined.

(** C1 where the folder accepts one object: the second create fails. *)
Lemma C1_witness :
  passes_validation Sim.req3 = true /\
  Sim.three !! 1 = Some (Sim.photo "b" 2048) /\
  snd (upload_loop (take 1 Sim.three) (fresh Sim.quota1)) = inr tt /\
  exists (done : list Done) (evs : list Event),
    length done = 1 /\
    log (fst (upload_handler Sim.req3 Sim.quota1)) = evs /\
    created evs = map create_params (take 2 Sim.three) /\
    Forall (fun ev => is_append ev = false) evs /\
    Forall (fun ev => is_delete ev = false) evs /\
    List.last evs (UnlinkSync "") =
      Respond 500 (Failure "The user's Drive storage quota has been exceeded.").
Proof.
  split; [reflexivity|]. split; [reflexivity|]. split; [reflexivity|].
  destruct (C1_upload_failure_aborts Sim.req3 Sim.quota1 Sim.three 1
              (Sim.photo "b" 2048)
              (fst (upload_loop (take 1 Sim.three) (fresh Sim.quota1)))
              (env (fst (upload_loop (take 1 Sim.three) (fresh Sim.quota1))))
              Sim.quota_exceeded)
    as (done & evs & Hlen & Hevs & Hh & Hc & Ha & Hd & _);
    [vm_compute; reflexivity ..|].
  exists done, evs. rewrite Hh. simpl.
  repeat (split; [assumption || reflexivity|]).
  rewrite Hevs. rewrite app_comm_cons, app_assoc. apply last_last.
Defined.

(** C4 on the same run. *)
Lemma C4_witness :
  passes_validation Sim.req3 = true /\
  exists (done : list Done) (rest : list Event),
    length (uploaded (fst (upload_handler Sim.req3 Sim.quota1))) = length done /\
    length done <= 3 /\
    uploaded (fst (upload_handler Sim.req3 Sim.quota1)) = entries done /\
    log (fst (upload_handler Sim.req3 Sim.quota1)) =
      loop_events (take (length done) Sim.three) done ++ rest.
Proof.
  split; [reflexivity|].
  destruct (C4_one_entry_per_processed_file Sim.req3 Sim.quota1 eq_refl)
    as (done & rest & H1 & H2 & H3 & H4 & _).
  exists done, rest. auto.
Defined.

(** C5 where everything works: the row the sheet is sent. *)
Lemma C5_witness :
  passes_validation Sim.req3 = true /\
  snd (upload_loop Sim.three (fresh Sim.healthy)) = inr tt /\
  exists evs r,
    log (fst (upload_handler Sim.req3 Sim.healthy)) = evs /\
    List.filter is_append evs =
      [ValuesAppend
         (mkAppend "sheet-1" "Sheet1!A:Z" "USER_ENTERED"
            [[ Some "2024-05-01T10:00:00.000Z"; Some "Ali"; Some "Valiyev";
               Some "+998901234567"; Some "3";
               Some "a.png | b.png | c.png";
               Some ("https://drive.google.com/file/d/file-0/view | "
                     +:+ "https://drive.google.com/file/d/file-1/view | "
                     +:+ "https://drive.google.com/file/d/file-2/view") ]])
         r].
Proof.
  split; [reflexivity|]. split; [reflexivity|].
  destruct (C5_one_row_of_seven_cells Sim.req3 Sim.healthy Sim.three
              (fst (upload_loop Sim.three (fresh Sim.healthy))))
    as (done & evs & r & row & fn & ln & ph
        & _ & Hu & _ & Hlog & Hf & Hrow & _ & Hfn & Hln & Hph & _);
    [vm_compute; reflexivity ..|].
  injection Hfn as <-. injection Hln as <-. injection Hph as <-.
  exists evs, r. split; [exact Hlog|].
  rewrite Hf, Hrow, <- Hu. vm_compute. reflexivity.
Defined.

(** C6 (amended) where everything works. *)
Lemma C6_witness :
  passes_validation Sim.req3 = true /\
  snd (upload_loop Sim.three (fresh Sim.healthy)) = inr tt /\
  exists (done : list Done) evs p r row,
    length done = 3 /\
    log (fst (upload_handler Sim.req3 Sim.healthy)) = evs /\
    List.filter is_append evs = [ValuesAppend p r] /\
    values p = [row] /\
    row !! 5 = Some (Some (join " | " (map Uploaded.name (entries done)))) /\
    row !! 6 = Some (Some (join " | " (map Uploaded.link (entries done)))).
Proof.
  split; [reflexivity|]. split; [reflexivity|].
  destruct (C6_names_and_links_joined Sim.req3 Sim.healthy Sim.three
              (fst (upload_loop Sim.three (fresh Sim.healthy))))
    as (done & evs & p & r & row & Hlen & _ & Hlog & Hf & Hv & H5 & H6);
    [vm_compute; reflexivity ..|].
  exists done, evs, p, r, row. auto 10.
Defined.

(** C6 as the claim words it: on three photos the sixth cell of the row
    the sheet receives is ["a.png | b.png | c.png"], which is not the
    names joined with ["|"], and the seventh is not the links joined with
    ["|"]. *)
Lemma C6_delimiter_counterexample :
  exists row,
    Sim.rows (env (fst (upload_handler Sim.req3 Sim.healthy))) = [row] /\
    map Uploaded.name (uploaded (fst (upload_handler Sim.req3 Sim.healthy)))
      = ["a.png"; "b.png"; "c.png"] /\
    row !! 5 = Some (Some "a.png | b.png | c.png") /\
    row !! 5 <>
      Some (Some (join "|"
        (map Uploaded.name
           (uploaded (fst (upload_handler Sim.req3 Sim.healthy)))))) /\
    row !! 6 <>
      Some (Some (join "|"
        (map Uploaded.link
           (uploaded (fst (upload_handler Sim.req3 Sim.healthy)))))).
Proof.
  eexists. split; [vm_compute; reflexivity|].
  split; [reflexivity|]. split; [reflexivity|].
  split; vm_compute; discriminate.
Qed.

(** C7 where every permission call is rejected and the metadata has no
    view link. *)
Lemma C7_witness :
  snd (upload_one (Sim.photo "a" 1024) (fresh Sim.unshared)) = inr tt /\
  uploaded (fst (upload_one (Sim.photo "a" 1024) (fresh Sim.unshared))) =
    [Uploaded.mk "file-0" "a.png" "https://drive.google.com/uc?id=file-0"] /\
  exists (done : list Done) meta a,
    length done = 3 /\
    ("file-0", inl Sim.forbidden, meta) ∈ done /\
    entry_of meta ∈ entries done /\
    log (fst (upload_handler Sim.req3 Sim.unshared)) =
      loop_events Sim.three done
      ++ [ValuesAppend a (inr tt); Respond 200 (Success (entries done))].
Proof.
  destruct (@C7_permission_failure_is_not_fatal Sim.World Sim.services)
    as [Hone Hreq].
  destruct (Hone (Sim.photo "a" 1024) (fresh Sim.unshared)
              (fst (Sim.create (create_params (Sim.photo "a" 1024))
                      (env Sim.unshared)))
              "file-0"
              (fst (Sim.create (create_params (Sim.photo "a" 1024))
                      (env Sim.unshared)))
              Sim.forbidden
              (fst (Sim.create (create_params (Sim.photo "a" 1024))
                      (env Sim.unshared)))
              (Meta.mk "file-0" "a.png" None)) as (H1 & _ & _);
    [vm_compute; reflexivity ..|].
  split; [now rewrite H1|]. split; [now rewrite H1|].
  destruct (Hreq Sim.req3 Sim.unshared
              (log (fst (upload_handler Sim.req3 Sim.unshared)))
              (permission_params "file-0") Sim.forbidden)
    as (done & meta & a & Hlen & Hin & Hent & Hlog).
  - reflexivity.
  - reflexivity.
  - vm_compute. apply list_elem_of_further, list_elem_of_here.
  - vm_compute. repeat constructor.
  - exists done, meta, a. auto.
Defined.

(** C8 where the spreadsheet service is down: the three objects stay in
    the folder. *)
Lemma C8_witness :
  passes_validation Sim.req3 = true /\
  snd (upload_loop Sim.three (fresh Sim.offline)) = inr tt /\
  exists (done : list Done) (evs : list Event),
    length done = 3 /\
    log (fst (upload_handler Sim.req3 Sim.offline)) = evs /\
    created evs = map create_params Sim.three /\
    Forall (fun ev => is_delete ev = false) evs /\
    List.last evs (UnlinkSync "") =
      Respond 500 (Failure "The service is currently unavailable.") /\
    map snd (Sim.objects (env (fst (upload_handler Sim.req3 Sim.offline))))
      = ["a.png"; "b.png"; "c.png"].
Proof.
  split; [reflexivity|]. split; [reflexivity|].
  destruct (C8_append_failure Sim.req3 Sim.offline Sim.three
              (fst (upload_loop Sim.three (fresh Sim.offline)))
              (env (fst (upload_loop Sim.three (fresh Sim.offline))))
              Sim.unavailable)
    as (done & evs & Hlen & Hevs & Hh & _ & Hc & Hd);
    [vm_compute; reflexivity ..|].
  exists done, evs. rewrite Hh. simpl.
  repeat (split; [assumption || reflexivity|]).
  split; [|reflexivity].
  rewrite Hevs. rewrite app_comm_cons, app_assoc. apply last_last.
Defined.

(** C9 on three runs: the upstream message is passed on, a thrown error
    without a message gives the fixed text, and a request without a last
    name gets the validation message. *)
Lemma C9_witness :
  (exists evs,
     log (fst (upload_handler Sim.req3 Sim.quota1)) =
       evs ++ [Respond 500
                 (Failure "The user's Drive storage quota has been exceeded.")]
     /\ Forall (fun ev => is_respond ev = false) evs) /\
  (exists evs,
     log (fst (upload_handler Sim.req3 Silent.start)) =
       evs ++ [Respond 500 (Failure "Server xatosi")]
     /\ Forall (fun ev => is_respond ev = false) evs) /\
  (exists evs,
     log (fst (upload_handler Sim.anonymous Sim.healthy)) =
       evs ++ [Respond 400
                 (Failure "Ism, familiya yoki telefon raqami toʻliq emas.")]
     /\ Forall (fun ev => is_respond ev = false) evs).
Proof.
  split; [|split].
  - destruct (C9_one_structured_response Sim.req3 Sim.quota1)
      as (s' & evs & status & body & Hh & Hlog & Hall & _).
    rewrite Hh. simpl. exists evs. split; [|exact Hall].
    rewrite Hlog. simpl. do 2 f_equal.
    apply (f_equal (fun x => last (log (fst x)))) in Hh.
    simpl in Hh. rewrite Hlog, !last_app in Hh. simpl in Hh.
    vm_compute in Hh. now injection Hh as <- <-.
  - destruct (C9_one_structured_response Sim.req3 Silent.start)
      as (s' & evs & status & body & Hh & Hlog & Hall & _).
    rewrite Hh. simpl. exists evs. split; [|exact Hall].
    rewrite Hlog. simpl. do 2 f_equal.
    apply (f_equal (fun x => last (log (fst x)))) in Hh.
    simpl in Hh. rewrite Hlog, !last_app in Hh. simpl in Hh.
    vm_compute in Hh. now injection Hh as <- <-.
  - destruct (C9_one_structured_response Sim.anonymous Sim.healthy)
      as (s' & evs & status & body & Hh & Hlog & Hall & _).
    rewrite Hh. simpl. exists evs. split; [|exact Hall].
    rewrite Hlog. simpl. do 2 f_equal.
    apply (f_equal (fun x => last (log (fst x)))) in Hh.
    simpl in Hh. rewrite Hlog, !last_app in Hh. simpl in Hh.
    vm_compute in Hh. now injection Hh as <- <-.
Defined.

(** C2 at a request the handler can receive.  Two photos of 60 MiB pass
    multer's limit per file and fail the third precondition: the handler
    answers 400 without a single [unlinkSync], and both temporary files
    are still there. *)
Theorem C2_too_large_leaves_temp_files :
  first_failed_check Sim.req_big = Some PayloadTooLarge /\
  log (fst (upload_handler Sim.req_big Sim.big_start)) =
    [Respond 400 (Failure msg_too_large)] /\
  tmp (fst (upload_handler Sim.req_big Sim.big_start)) = tmp Sim.big_start /\
  "tmp_uploads/x" ∈ tmp (fst (upload_handler Sim.req_big Sim.big_start)) /\
  "tmp_uploads/y" ∈ tmp (fst (upload_handler Sim.req_big Sim.big_start)).
Proof.
  assert (Hc : first_failed_check Sim.req_big = Some PayloadTooLarge)
    by reflexivity.
  rewrite (upload_handler_invalid Sim.req_big Sim.big_start _ Hc).
  split; [exact Hc|]. split; [reflexivity|]. simpl.
  split; [set_solver|]. split; set_solver.
Qed.

(** X1 on the run of C1. *)
Lemma X1_witness :
  first_failed_check Sim.req3 = None /\
  (forall f, f ∈ Sim.three ->
     File.path f ∉ tmp (fst (upload_handler Sim.req3 Sim.quota1))).
Proof.
  split; [reflexivity|].
  apply (X1_temp_files_released Sim.req3 Sim.quota1); discriminate.
Defined.

(** X2 where the metadata of the second object cannot be read. *)
Lemma X2_witness :
  passes_validation Sim.req3 = true /\
  Sim.three !! 1 = Some (Sim.photo "b" 2048) /\
  exists (done : list Done) (evs : list Event),
    length done = 1 /\
    log (fst (upload_handler Sim.req3 Lagging.start)) = evs /\
    created_ids evs = map (fun d => fst (fst d)) done ++ ["file-1"] /\
    length (entries done) = 1 /\
    Forall (fun ev => is_append ev = false) evs /\
    Forall (fun ev => is_delete ev = false) evs.
Proof.
  split; [reflexivity|]. split; [reflexivity|].
  destruct (X2_metadata_failure Sim.req3 Lagging.start Sim.three 1
              (Sim.photo "b" 2048)
              (fst (upload_loop (take 1 Sim.three) (fresh Lagging.start)))
              2 "file-1" 2 (inr tt) 2 Lagging.not_found)
    as (done & evs & Hlen & _ & Hh & Hids & He & Ha & Hd);
    [vm_compute; reflexivity ..|].
  exists done, evs. rewrite Hh. simpl. auto 10.
Defined.

(** X4 after the first of three photos. *)
Lemma X4_witness :
  NoDup (paths Sim.three) /\
  snd (upload_loop (take 1 Sim.three) (fresh Lagging.start)) = inr tt /\
  (forall f, f ∈ drop 1 Sim.three ->
     File.path f ∈
       tmp (fst (upload_loop (take 1 Sim.three) (fresh Lagging.start)))) /\
  (forall f, f ∈ take 1 Sim.three ->
     File.path f ∉
       tmp (fst (upload_loop (take 1 Sim.three) (fresh Lagging.start)))).
Proof.
  assert (Hnd : NoDup (paths Sim.three)).
  { apply (bool_decide_unpack _). vm_compute. exact I. }
  split; [exact Hnd|]. split; [reflexivity|].
  apply (X4_pending_temp_files_kept Sim.three 1 (fresh Lagging.start)).
  - exact Hnd.
  - intros f Hf. now apply path_in_paths.
  - vm_compute. reflexivity.
Defined.
